(** * Kaspixel client: canvas merge, pixel placement and polling loops

    A shallow embedding of the client-side engine of the Kaspixel frontend:
    - [hooks/use-websocket.tsx]: the broadcast stream handler ([onmessage]),
      the heartbeat interval and the reconnect timer;
    - [hooks/use-api.ts]: [getWalletBalance];
    - the [PixelCanvas] component: the merge effect, [handlePixelClick],
      [verifyTransactionWithBackend], [startWalletBalancePolling] and the
      unmount clean-up.

    JavaScript objects used as maps ([Record<string, string>]) are [gmap
    string string]; integers are [Z]; times are milliseconds in [Z].  *)

From stdpp Require Import base strings pretty gmap list fin_maps.
From Stdlib Require Import Ascii ZArith Lia.

Local Open Scope Z_scope.

(** ** Cell keys *)

(** [`${x},${y}`] for integral coordinates. *)
Definition pixelKey (x y : Z) : string := pretty x +:+ "," +:+ pretty y.

(** No character of [s] is a comma. *)
Fixpoint commaFree (s : string) : bool :=
  match s with
  | EmptyString => true
  | String a s' => negb (Ascii.eqb a ","%char) && commaFree s'
  end.

(** ** [useApi]: the balance and verification endpoints *)

Module Api.

(** How an [async] function completes: it returns, or it throws. *)
Inductive Completion (A : Type) :=
| Return (a : A)
| Throw (message : string).
Arguments Return {A} a.
Arguments Throw {A} message.

(** What [fetch] and [response.json()] give for a balance query. *)
Inductive BalanceResponse :=
| fetchRejected (message : string)     (* [fetch] throws: network error *)
| httpError (status : Z)               (* [response.ok] is false *)
| badBody (message : string)           (* [response.json()] throws *)
| balanceBody (pixel_balance : Z).     (* [{ pixel_balance }] *)

(** The query failed: a network error, a non-OK response or a body that
    does not parse. *)
Definition queryFailed (r : BalanceResponse) : bool :=
  match r with
  | fetchRejected _ | httpError _ | badBody _ => true
  | balanceBody _ => false
  end.

(** The hook's state after a call has finished. *)
Record ApiState := {
  isLoading : bool;
  error : option string;
}.

(** [getWalletBalance]: [try { ...; if (!response.ok) throw ...;
    return data.pixel_balance } catch (err) { setError(...); return 0 }
    finally { setIsLoading(false) }], after [setError(null)]. *)
Definition getWalletBalance (wallet_address : string) (r : BalanceResponse)
  : Completion Z * ApiState :=
  match r with
  | balanceBody pixel_balance =>
      (Return pixel_balance, {| isLoading := false; error := None |})
  | fetchRejected message | badBody message =>
      (Return 0, {| isLoading := false; error := Some message |})
  | httpError status =>
      (Return 0,
       {| isLoading := false;
          error := Some ("Failed to get wallet balance: " +:+ pretty status) |})
  end.

(** What [fetch] and [response.json()] give for a verification query. *)
Inductive VerifyResponse :=
| verifyRejected (message : string)
| verifyHttpError (status : Z)
| verifyBody (verified : bool).

(** [verifyTransaction]: the same shape, but [catch] rethrows. *)
Definition verifyTransaction (transaction_id : string) (r : VerifyResponse)
  : Completion bool * ApiState :=
  match r with
  | verifyBody verified =>
      (Return verified, {| isLoading := false; error := None |})
  | verifyRejected message =>
      (Throw message, {| isLoading := false; error := Some message |})
  | verifyHttpError status =>
      let message := "Failed to verify transaction: " +:+ pretty status in
      (Throw message, {| isLoading := false; error := Some message |})
  end.

Definition verifyFailed (r : VerifyResponse) : bool :=
  match r with
  | verifyRejected _ | verifyHttpError _ => true
  | verifyBody _ => false
  end.

End Api.

(** ** The broadcast stream: [useWebSocket], [socket.onmessage] *)

Module WebSocketHook.

(** A parsed frame of the stream, by its [type] field.  [malformed] is a
    frame on which [JSON.parse] throws. *)
Inductive WebSocketMessage :=
| canvas_state (data : gmap string string)
| pixel_update (x y : Z) (color : string)
| pong
| ping
| unknown (type : string)
| malformed.

(** The state setter run by [onmessage]: [setCanvasState(message.data)] for
    a snapshot, [newState[`${x},${y}`] = color] on a copy for a delta; any
    other frame leaves [canvasState] alone. *)
Definition onmessage (message : WebSocketMessage) (prev : gmap string string)
  : gmap string string :=
  match message with
  | canvas_state data => data
  | pixel_update x y color => <[pixelKey x y := color]> prev
  | pong | ping | unknown _ | malformed => prev
  end.

(** Whether the frame calls [setCanvasState] with a fresh object, which
    re-runs the effects that depend on [canvasState]. *)
Definition updatesCanvasState (message : WebSocketMessage) : bool :=
  match message with
  | canvas_state _ | pixel_update _ _ _ => true
  | _ => false
  end.

(** *** The connection: sockets, heartbeat and reconnect *)

Inductive ReadyState := CONNECTING | OPEN | CLOSING | CLOSED.

(** The callback of a timer of the hook. *)
Inductive TimerCallback :=
| pingTick (socket : nat)       (* [setInterval(..., 15000)] of [onopen] *)
| reconnectTimeout.             (* [setTimeout(..., 3000)] *)

(** The refs and state of the hook, every [WebSocket] it created with its
    [readyState], and the timers alive in the runtime, by id.
    [urlAccepted] tells whether [new WebSocket(wsUrl)] returns rather than
    throws; [pingsSent] lists the sockets a ping was sent on. *)
Record Hook := {
  urlAccepted : bool;
  sockets : gmap nat ReadyState;
  socketRef : option nat;
  reconnectTimeoutRef : option nat;
  pingIntervalRef : option nat;
  lastPongRef : Z;
  isConnected : bool;
  isConnecting : bool;
  canvasState : gmap string string;
  timers : gmap nat TimerCallback;
  nextId : nat;
  pingsSent : list nat;
}.

Definition with_sockets (x : gmap nat ReadyState) (h : Hook) : Hook :=
  {| urlAccepted := urlAccepted h;
     sockets := x;
     socketRef := socketRef h;
     reconnectTimeoutRef := reconnectTimeoutRef h;
     pingIntervalRef := pingIntervalRef h;
     lastPongRef := lastPongRef h;
     isConnected := isConnected h;
     isConnecting := isConnecting h;
     canvasState := canvasState h;
     timers := timers h;
     nextId := nextId h;
     pingsSent := pingsSent h |}.

Definition with_socketRef (x : option nat) (h : Hook) : Hook :=
  {| urlAccepted := urlAccepted h;
     sockets := sockets h;
     socketRef := x;
     reconnectTimeoutRef := reconnectTimeoutRef h;
     pingIntervalRef := pingIntervalRef h;
     lastPongRef := lastPongRef h;
     isConnected := isConnected h;
     isConnecting := isConnecting h;
     canvasState := canvasState h;
     timers := timers h;
     nextId := nextId h;
     pingsSent := pingsSent h |}.

Definition with_reconnectTimeoutRef (x : option nat) (h : Hook) : Hook :=
  {| urlAccepted := urlAccepted h;
     sockets := sockets h;
     socketRef := socketRef h;
     reconnectTimeoutRef := x;
     pingIntervalRef := pingIntervalRef h;
     lastPongRef := lastPongRef h;
     isConnected := isConnected h;
     isConnecting := isConnecting h;
     canvasState := canvasState h;
     timers := timers h;
     nextId := nextId h;
     pingsSent := pingsSent h |}.

Definition with_pingIntervalRef (x : option nat) (h : Hook) : Hook :=
  {| urlAccepted := urlAccepted h;
     sockets := sockets h;
     socketRef := socketRef h;
     reconnectTimeoutRef := reconnectTimeoutRef h;
     pingIntervalRef := x;
     lastPongRef := lastPongRef h;
     isConnected := isConnected h;
     isConnecting := isConnecting h;
     canvasState := canvasState h;
     timers := timers h;
     nextId := nextId h;
     pingsSent := pingsSent h |}.

Definition with_lastPongRef (x : Z) (h : Hook) : Hook :=
  {| urlAccepted := urlAccepted h;
     sockets := sockets h;
     socketRef := socketRef h;
     reconnectTimeoutRef := reconnectTimeoutRef h;
     pingIntervalRef := pingIntervalRef h;
     lastPongRef := x;
     isConnected := isConnected h;
     isConnecting := isConnecting h;
     canvasState := canvasState h;
     timers := timers h;
     nextId := nextId h;
     pingsSent := pingsSent h |}.

Definition with_isConnected (x : bool) (h : Hook) : Hook :=
  {| urlAccepted := urlAccepted h;
     sockets := sockets h;
     socketRef := socketRef h;
     reconnectTimeoutRef := reconnectTimeoutRef h;
     pingIntervalRef := pingIntervalRef h;
     lastPongRef := lastPongRef h;
     isConnected := x;
     isConnecting := isConnecting h;
     canvasState := canvasState h;
     timers := timers h;
     nextId := nextId h;
     pingsSent := pingsSent h |}.

Definition with_isConnecting (x : bool) (h : Hook) : Hook :=
  {| urlAccepted := urlAccepted h;
     sockets := sockets h;
     socketRef := socketRef h;
     reconnectTimeoutRef := reconnectTimeoutRef h;
     pingIntervalRef := pingIntervalRef h;
     lastPongRef := lastPongRef h;
     isConnected := isConnected h;
     isConnecting := x;
     canvasState := canvasState h;
     timers := timers h;
     nextId := nextId h;
     pingsSent := pingsSent h |}.

Definition with_canvasState (x : gmap string string) (h : Hook) : Hook :=
  {| urlAccepted := urlAccepted h;
     sockets := sockets h;
     socketRef := socketRef h;
     reconnectTimeoutRef := reconnectTimeoutRef h;
     pingIntervalRef := pingIntervalRef h;
     lastPongRef := lastPongRef h;
     isConnected := isConnected h;
     isConnecting := isConnecting h;
     canvasState := x;
     timers := timers h;
     nextId := nextId h;
     pingsSent := pingsSent h |}.

Definition with_timers (x : gmap nat TimerCallback) (h : Hook) : Hook :=
  {| urlAccepted := urlAccepted h;
     sockets := sockets h;
     socketRef := socketRef h;
     reconnectTimeoutRef := reconnectTimeoutRef h;
     pingIntervalRef := pingIntervalRef h;
     lastPongRef := lastPongRef h;
     isConnected := isConnected h;
     isConnecting := isConnecting h;
     canvasState := canvasState h;
     timers := x;
     nextId := nextId h;
     pingsSent := pingsSent h |}.

Definition with_nextId (x : nat) (h : Hook) : Hook :=
  {| urlAccepted := urlAccepted h;
     sockets := sockets h;
     socketRef := socketRef h;
     reconnectTimeoutRef := reconnectTimeoutRef h;
     pingIntervalRef := pingIntervalRef h;
     lastPongRef := lastPongRef h;
     isConnected := isConnected h;
     isConnecting := isConnecting h;
     canvasState := canvasState h;
     timers := timers h;
     nextId := x;
     pingsSent := pingsSent h |}.

Definition with_pingsSent (x : list nat) (h : Hook) : Hook :=
  {| urlAccepted := urlAccepted h;
     sockets := sockets h;
     socketRef := socketRef h;
     reconnectTimeoutRef := reconnectTimeoutRef h;
     pingIntervalRef := pingIntervalRef h;
     lastPongRef := lastPongRef h;
     isConnected := isConnected h;
     isConnecting := isConnecting h;
     canvasState := canvasState h;
     timers := timers h;
     nextId := nextId h;
     pingsSent := x |}.

(** The hook before its effect ran. *)
Definition rendered (accepted : bool) (now : Z) : Hook :=
  {| urlAccepted := accepted; sockets := ∅; socketRef := None;
     reconnectTimeoutRef := None; pingIntervalRef := None;
     lastPongRef := now; isConnected := false; isConnecting := false;
     canvasState := ∅; timers := ∅; nextId := 1; pingsSent := [] |}.

Definition setTimer (cb : TimerCallback) (h : Hook) : nat * Hook :=
  (nextId h,
   with_nextId (S (nextId h)) (with_timers (<[nextId h := cb]> (timers h)) h)).

Definition clearIfSet (ref : option nat) (h : Hook) : Hook :=
  match ref with
  | Some id => with_timers (delete id (timers h)) h
  | None => h
  end.

(** [socket.close()]: a socket that is connecting or open starts closing;
    its [close] event comes later. *)
Definition close (socket : nat) (h : Hook) : Hook :=
  match sockets h !! socket with
  | Some CONNECTING | Some OPEN =>
      with_sockets (<[socket := CLOSING]> (sockets h)) h
  | _ => h
  end.

(** [if (reconnectTimeoutRef.current) clearTimeout(...);
     reconnectTimeoutRef.current = setTimeout(connectWebSocket, 3000)]. *)
Definition scheduleReconnect (h : Hook) : Hook :=
  let h := clearIfSet (reconnectTimeoutRef h) h in
  let '(id, h) := setTimer reconnectTimeout h in
  with_reconnectTimeoutRef (Some id) h.

(** [connectWebSocket]. *)
Definition connectWebSocket (h : Hook) : Hook :=
  match socketRef h ≫= (fun socket => sockets h !! socket) with
  | Some OPEN => h
  | _ =>
      let h := with_isConnecting true h in
      if urlAccepted h then
        let socket := nextId h in
        let h := with_nextId (S socket)
                   (with_sockets (<[socket := CONNECTING]> (sockets h)) h) in
        with_socketRef (Some socket) h
      else scheduleReconnect h
  end.

(** [socket.onopen]. *)
Definition onopen (socket : nat) (h : Hook) : Hook :=
  let h := with_isConnecting false (with_isConnected true h) in
  let h := clearIfSet (pingIntervalRef h) h in
  let '(id, h) := setTimer (pingTick socket) h in
  with_pingIntervalRef (Some id) h.

(** [socket.onclose]. *)
Definition onclose (h : Hook) : Hook :=
  let h := with_isConnecting false (with_isConnected false h) in
  let h := with_pingIntervalRef None (clearIfSet (pingIntervalRef h) h) in
  scheduleReconnect h.

(** [socket.onerror]. *)
Definition onerror (socket : nat) (h : Hook) : Hook := close socket h.

(** The heartbeat callback of [socket]. *)
Definition pingTick_run (socket : nat) (now : Z) (h : Hook) : Hook :=
  match sockets h !! socket with
  | Some OPEN =>
      let h := with_pingsSent (pingsSent h ++ [socket]) h in
      if 45000 <? now - lastPongRef h then close socket h else h
  | _ => h
  end.

(** [socket.onmessage] on the whole hook. *)
Definition onmessage_run (message : WebSocketMessage) (now : Z) (h : Hook)
  : Hook :=
  match message with
  | canvas_state _ | pixel_update _ _ _ =>
      with_canvasState (onmessage message (canvasState h)) h
  | pong | ping => with_lastPongRef now h
  | unknown _ | malformed => h
  end.

(** The clean-up returned by the effect. *)
Definition cleanup (h : Hook) : Hook :=
  let h := match socketRef h with
           | Some socket => close socket h
           | None => h
           end in
  clearIfSet (pingIntervalRef h) (clearIfSet (reconnectTimeoutRef h) h).

Inductive Event :=
| mount
| opened (socket : nat)
| closed (socket : nat)
| errored (socket : nat)
| frame (socket : nat) (message : WebSocketMessage) (now : Z)
| timerFires (id : nat) (now : Z)
| teardown.

(** One turn of the event loop.  The browser raises [open] on a connecting
    socket, frames on an open one and [close] once on a socket that is not
    closed yet; a cleared timer does not fire. *)
Definition step (h : Hook) (e : Event) : Hook :=
  match e with
  | mount => connectWebSocket h
  | opened socket =>
      match sockets h !! socket with
      | Some CONNECTING =>
          onopen socket (with_sockets (<[socket := OPEN]> (sockets h)) h)
      | _ => h
      end
  | closed socket =>
      match sockets h !! socket with
      | Some CONNECTING | Some OPEN | Some CLOSING =>
          onclose (with_sockets (<[socket := CLOSED]> (sockets h)) h)
      | _ => h
      end
  | errored socket =>
      match sockets h !! socket with
      | Some CONNECTING | Some OPEN | Some CLOSING => onerror socket h
      | _ => h
      end
  | frame socket message now =>
      match sockets h !! socket with
      | Some OPEN => onmessage_run message now h
      | _ => h
      end
  | timerFires id now =>
      match timers h !! id with
      | Some (pingTick socket) => pingTick_run socket now h
      | Some reconnectTimeout =>
          connectWebSocket (with_timers (delete id (timers h)) h)
      | None => h
      end
  | teardown => cleanup h
  end.

Definition run (h : Hook) (events : list Event) : Hook := foldl step h events.

End WebSocketHook.

(** ** [PixelCanvas]: merging the stream into the local view *)

Module Merge.
Import WebSocketHook.

(** The client's two copies of the grid: the hook's [canvasState] and the
    component's [localCanvasState]. *)
Record ClientView := {
  canvasState : gmap string string;
  localCanvasState : gmap string string;
}.

(** The effect on [canvasState]:
    [if (canvasState && Object.keys(canvasState).length > 0)
       setLocalCanvasState(prevState => ({ ...prevState, ...canvasState }))].
    In an object spread the later source wins, which is the left-biased
    union with [canvasState] on the left. *)
Definition mergeEffect (canvasState prevState : gmap string string)
  : gmap string string :=
  if bool_decide (0 < size canvasState)%nat then canvasState ∪ prevState
  else prevState.

(** One frame delivered to the client and rendered on its own: the hook
    updates [canvasState], and when it did the component renders and its
    effect merges the new [canvasState], before the next frame is handled.
    The frames that one render takes together are [renderBatch]. *)
Definition receive (message : WebSocketMessage) (v : ClientView) : ClientView :=
  let cs := onmessage message (canvasState v) in
  {| canvasState := cs;
     localCanvasState :=
       if updatesCanvasState message
       then mergeEffect cs (localCanvasState v)
       else localCanvasState v |}.

(** Frames delivered one after the other, first frame first, each rendered
    on its own. *)
Definition deliver (messages : list WebSocketMessage) (v : ClientView)
  : ClientView :=
  foldl (fun acc m => receive m acc) v messages.

(** The frames handled before one render, first frame first.  The
    [setCanvasState] calls of the frames are queued and applied in order at
    the render, so the hook's [canvasState] is their fold; the effect on
    [canvasState] then runs once, with that last value, when some frame
    called the setter.  A [canvasState] that an earlier frame of the batch
    produced is never seen by the effect. *)
Definition renderBatch (frames : list WebSocketMessage) (v : ClientView)
  : ClientView :=
  let cs := foldl (fun acc m => onmessage m acc) (canvasState v) frames in
  {| canvasState := cs;
     localCanvasState :=
       if existsb updatesCanvasState frames
       then mergeEffect cs (localCanvasState v)
       else localCanvasState v |}.

(** The renders of a session, first render first. *)
Definition renderBatches (batches : list (list WebSocketMessage))
    (v : ClientView) : ClientView :=
  foldl (fun acc frames => renderBatch frames acc) v batches.

(** A write accepted by the server.  [acceptedAt] is the server's
    acceptance order; the delta frame does not carry it. *)
Record AcceptedWrite := {
  wx : Z;
  wy : Z;
  wcolor : string;
  acceptedAt : nat;
}.

Definition writeKey (w : AcceptedWrite) : string := pixelKey (wx w) (wy w).

(** The frame broadcast for an accepted write: [{x, y, color}]. *)
Definition delta (w : AcceptedWrite) : WebSocketMessage :=
  pixel_update (wx w) (wy w) (wcolor w).

(** The chronologically last accepted write among [ws]. *)
Fixpoint lastAccepted (ws : list AcceptedWrite) : option AcceptedWrite :=
  match ws with
  | [] => None
  | w :: rest =>
      match lastAccepted rest with
      | Some w' => if (acceptedAt w <? acceptedAt w')%nat then Some w' else Some w
      | None => Some w
      end
  end.

(** The last write of [ws], in list order, whose cell key is [k]. *)
Definition lastDelivered (k : string) (ws : list AcceptedWrite) : option AcceptedWrite :=
  last (filter (fun w => writeKey w = k) ws).

(** The writes of [ws] are listed in the order of their acceptance. *)
Fixpoint acceptedInOrder (ws : list AcceptedWrite) : bool :=
  match ws with
  | [] => true
  | w :: rest =>
      match rest with
      | [] => true
      | w' :: _ => (acceptedAt w <? acceptedAt w')%nat && acceptedInOrder rest
      end
  end.

(** Claim wording, last-writer-wins by acceptance time: after the deltas of
    [ws] were merged in the order of the list, cell [k] shows the colour of
    the chronologically last accepted write. *)
Definition chronologicalLastWins (ws : list AcceptedWrite) (v : ClientView) (k : string)
  : Prop :=
  localCanvasState (deliver (delta <$> ws) v) !! k = wcolor <$> lastAccepted ws.

(** Claim wording, snapshot receipt: the local view becomes the snapshot,
    with the not-yet-acknowledged local writes (the cells of [unacked])
    reapplied on top; every other local cell absent from the snapshot is
    gone. *)
Definition snapshotReplaces (unacked : gset string) (data : gmap string string)
    (before after : ClientView) : Prop :=
  forall k : string,
    localCanvasState after !! k =
      if bool_decide (k ∈ unacked) then localCanvasState before !! k
      else data !! k.

End Merge.

(** ** [PixelCanvas]: [handlePixelClick] *)

Module Click.

(** [s.startsWith(p)] and [s.includes(needle)]. *)
Fixpoint startsWith (p s : string) : bool :=
  match p, s with
  | EmptyString, _ => true
  | String a p', String b s' => Ascii.eqb a b && startsWith p' s'
  | String _ _, EmptyString => false
  end.

Fixpoint includes (needle s : string) : bool :=
  startsWith needle s ||
  match s with
  | EmptyString => false
  | String _ s' => includes needle s'
  end.

Definition GRID_SIZE : Z := 10.

(** A call of [toast]. *)
Record Toast := {
  title : string;
  description : string;
  destructive : bool;
}.

(** The arguments of a call of [placePixel]. *)
Record PlacePixelArgs := {
  px : Z;
  py : Z;
  pcolor : string;
  wallet_address : string;
  transaction_id : string;
}.

(** What the awaited [placePixel] call gives back: the parsed response with
    its optional [remaining_balance], or a thrown [Error] with its
    message. *)
Inductive PlacePixelResult :=
| placed (remaining_balance : option Z)
| thrown (message : string).

Inductive BackendStatus := connecting | online | offline.

(** The values the handler closes over. *)
Record Props := {
  isMobile : bool;
  isConnected : bool;
  address : option string;
  backendStatus : BackendStatus;
  selectedColor : string;
  canvasWidth : Z;
  canvasHeight : Z;
  canvasMounted : bool;          (* [canvasRef.current] is not null *)
}.

(** The click, after scaling: [rawX], [rawY] are the floored canvas
    coordinates; [timestamp] and [randomStr] feed the transaction id. *)
Record ClickEvent := {
  rawX : Z;
  rawY : Z;
  timestamp : Z;
  randomStr : string;
}.

(** The component state the handler reads and writes, with the calls it
    makes to [toast] and [placePixel], oldest first. *)
Record View := {
  localCanvasState : gmap string string;
  remainingPixels : Z;
  showPurchaseModal : bool;
  showMobileMessage : bool;
  toasts : list Toast;
  placePixelCalls : list PlacePixelArgs;
}.

Definition setShowMobileMessage (b : bool) (v : View) : View :=
  {| localCanvasState := localCanvasState v;
     remainingPixels := remainingPixels v;
     showPurchaseModal := showPurchaseModal v;
     showMobileMessage := b;
     toasts := toasts v;
     placePixelCalls := placePixelCalls v |}.

Definition setShowPurchaseModal (b : bool) (v : View) : View :=
  {| localCanvasState := localCanvasState v;
     remainingPixels := remainingPixels v;
     showPurchaseModal := b;
     showMobileMessage := showMobileMessage v;
     toasts := toasts v;
     placePixelCalls := placePixelCalls v |}.

Definition setRemainingPixels (f : Z -> Z) (v : View) : View :=
  {| localCanvasState := localCanvasState v;
     remainingPixels := f (remainingPixels v);
     showPurchaseModal := showPurchaseModal v;
     showMobileMessage := showMobileMessage v;
     toasts := toasts v;
     placePixelCalls := placePixelCalls v |}.

Definition setLocalCanvasState
    (f : gmap string string -> gmap string string) (v : View) : View :=
  {| localCanvasState := f (localCanvasState v);
     remainingPixels := remainingPixels v;
     showPurchaseModal := showPurchaseModal v;
     showMobileMessage := showMobileMessage v;
     toasts := toasts v;
     placePixelCalls := placePixelCalls v |}.

Definition toast (t : Toast) (v : View) : View :=
  {| localCanvasState := localCanvasState v;
     remainingPixels := remainingPixels v;
     showPurchaseModal := showPurchaseModal v;
     showMobileMessage := showMobileMessage v;
     toasts := toasts v ++ [t];
     placePixelCalls := placePixelCalls v |}.

Definition placePixel (a : PlacePixelArgs) (v : View) : View :=
  {| localCanvasState := localCanvasState v;
     remainingPixels := remainingPixels v;
     showPurchaseModal := showPurchaseModal v;
     showMobileMessage := showMobileMessage v;
     toasts := toasts v;
     placePixelCalls := placePixelCalls v ++ [a] |}.

Definition walletNotConnected : Toast :=
  {| title := "Wallet not connected";
     description := "Please connect your wallet to place pixels.";
     destructive := true |}.

Definition outOfPixels (isDestructive : bool) : Toast :=
  {| title := "Out of pixels";
     description := "You've used all your pixels. Buy more to continue placing.";
     destructive := isDestructive |}.

Definition backendError (message : string) : Toast :=
  {| title := "Backend Error";
     description := "Could not save pixel to server: " +:+ message;
     destructive := true |}.

Definition localMode : Toast :=
  {| title := "Local Mode";
     description := "Pixel placed locally. Backend is offline.";
     destructive := false |}.

(** Where the handler stands when it returns or reaches its [await]. *)
Inductive ClickStep :=
| Finished (v : View)
| Awaiting (v : View) (request : PlacePixelArgs).

(** The tail of the handler, after the backend branch:
    [if (remainingPixels === 1) toast(...)], on the value of
    [remainingPixels] the handler closed over. *)
Definition lastPixelNotice (closedRemaining : Z) (v : View) : View :=
  if closedRemaining =? 1 then toast (outOfPixels false) v else v.

(** [handlePixelClick] up to [await placePixel(...)]. *)
Definition handlePixelClick_begin (p : Props) (e : ClickEvent) (v : View)
  : ClickStep :=
  if isMobile p then Finished (setShowMobileMessage true v)
  else if negb (isConnected p) then Finished (toast walletNotConnected v)
  else if remainingPixels v <=? 0 then Finished (setShowPurchaseModal true v)
  else if negb (canvasMounted p) then Finished v
  else
    let x := rawX e / GRID_SIZE * GRID_SIZE in
    let y := rawY e / GRID_SIZE * GRID_SIZE in
    if (x <? 0) || (canvasWidth p <=? x) || (y <? 0) || (canvasHeight p <=? y)
    then Finished v
    else
      let key := pixelKey x y in
      let v1 := setLocalCanvasState (insert key (selectedColor p)) v in
      match backendStatus p with
      | online =>
          let walletAddress :=
            match address p with
            | Some a => if String.eqb a "" then "demo-wallet-address" else a
            | None => "demo-wallet-address"
            end in
          let formattedColor :=
            if startsWith "#" (selectedColor p) then selectedColor p
            else "#" +:+ selectedColor p in
          let transactionId :=
            "placement-" +:+ pretty (timestamp e) +:+ "-" +:+ randomStr e
              +:+ "-" +:+ pretty x +:+ "-" +:+ pretty y in
          let args :=
            {| px := x; py := y; pcolor := formattedColor;
               wallet_address := walletAddress;
               transaction_id := transactionId |} in
          Awaiting (placePixel args v1) args
      | connecting | offline =>
          Finished
            (lastPixelNotice (remainingPixels v)
               (setRemainingPixels (fun prev => prev - 1) (toast localMode v1)))
      end.

(** [handlePixelClick] from the point where [placePixel] settles. *)
Definition handlePixelClick_resume (closedRemaining : Z)
    (r : PlacePixelResult) (v : View) : View :=
  lastPixelNotice closedRemaining
    match r with
    | placed (Some remaining_balance) =>
        setRemainingPixels (fun _ => remaining_balance) v
    | placed None => setRemainingPixels (fun prev => prev - 1) v
    | thrown message =>
        if includes "Insufficient pixel balance" message
        then setShowPurchaseModal true
               (setRemainingPixels (fun _ => 0) (toast (outOfPixels true) v))
        else toast (backendError message) v
    end.

(** The whole handler, when nothing else runs between the request and its
    answer. *)
Definition handlePixelClick (p : Props) (e : ClickEvent)
    (r : PlacePixelResult) (v : View) : View :=
  match handlePixelClick_begin p e v with
  | Finished v' => v'
  | Awaiting v' _ => handlePixelClick_resume (remainingPixels v) r v'
  end.

(** The cell a click lands on. *)
Definition clickedKey (e : ClickEvent) : string :=
  pixelKey (rawX e / GRID_SIZE * GRID_SIZE) (rawY e / GRID_SIZE * GRID_SIZE).

(** Claim wording, denied write: the clicked cell is back at the value it
    had before the click, and an out-of-credit notice was raised. *)
Definition rolledBackAndReported (e : ClickEvent) (before after : View) : Prop :=
  localCanvasState after !! clickedKey e = localCanvasState before !! clickedKey e
  /\ outOfPixels true ∈ toasts after.

(** Claim wording, blocked click: the user is shown the purchase modal or
    the connect-wallet prompt. *)
Definition promptShown (after : View) : Prop :=
  showPurchaseModal after = true \/ walletNotConnected ∈ toasts after.

End Click.

(** ** [PixelCanvas]: the timed loops *)

Module Polling.
Import Api.

(** The values of the render that the callbacks close over. *)
Record Closure := {
  pixelPackSize : Z;
  closedRemainingPixels : Z;
  isConnected : bool;
  address : option string;
  transaction_check_interval : option Z;
}.

(** [!isConnected || !address] is false. *)
Definition walletReady (c : Closure) : option string :=
  if isConnected c then
    match address c with
    | Some a => if String.eqb a "" then None else Some a
    | None => None
    end
  else None.

(** The callback of a timer. *)
Inductive TimerCallback :=
| elapsedTick
| verificationTick (txId : string) (packs : Z) (initialBalance : option Z)
    (c : Closure)
| balanceTick (loop : nat)
| balanceSafetyTimeout.

(** The rest of an [async] callback, parked at its [await]. *)
Inductive Continuation :=
| afterVerify (txId : string) (packs : Z) (initialBalance : option Z)
    (c : Closure)
| afterCurrentBalance (initialBalance pixelsPurchased : Z) (c : Closure)
| afterBalancePoll (loop : nat).

(** The variables of one run of the [.then] callback of
    [startWalletBalancePolling], shared by the calls of its
    [checkBalance]. *)
Record BalanceLoop := {
  closure : Closure;
  initialBalance : Z;
  expectedBalance : Z;
  lastPolledBalance : Z;
  pollCount : Z;
  zeroBalanceCount : Z;
  pollingStartTime : Z;
}.

(** What the confirmation block did, for counting. *)
Inductive Effect :=
| confirmationProcessed (txId : string) (confirmationTime : Z)
| walletBalancePollingStarted (pixelsPurchased initialBalance : Z).

(** The refs and state of the component that the loops use, the timers and
    promises alive in the runtime (by id), and the log of confirmations. *)
Record Component := {
  verificationIntervalRef : option nat;
  timerIntervalRef : option nat;
  startTimeRef : option Z;
  isVerifiedRef : bool;
  walletBalanceIntervalRef : option nat;
  transactionVerified : bool;
  transactionTime : option Z;
  remainingPixels : Z;
  timers : gmap nat TimerCallback;
  pending : gmap nat Continuation;
  loops : gmap nat BalanceLoop;
  nextId : nat;
  log : list Effect;
}.

Definition with_verificationIntervalRef (x : option nat) (s : Component) : Component :=
  {| verificationIntervalRef := x;
     timerIntervalRef := timerIntervalRef s;
     startTimeRef := startTimeRef s;
     isVerifiedRef := isVerifiedRef s;
     walletBalanceIntervalRef := walletBalanceIntervalRef s;
     transactionVerified := transactionVerified s;
     transactionTime := transactionTime s;
     remainingPixels := remainingPixels s;
     timers := timers s;
     pending := pending s;
     loops := loops s;
     nextId := nextId s;
     log := log s |}.

Definition with_timerIntervalRef (x : option nat) (s : Component) : Component :=
  {| verificationIntervalRef := verificationIntervalRef s;
     timerIntervalRef := x;
     startTimeRef := startTimeRef s;
     isVerifiedRef := isVerifiedRef s;
     walletBalanceIntervalRef := walletBalanceIntervalRef s;
     transactionVerified := transactionVerified s;
     transactionTime := transactionTime s;
     remainingPixels := remainingPixels s;
     timers := timers s;
     pending := pending s;
     loops := loops s;
     nextId := nextId s;
     log := log s |}.

Definition with_startTimeRef (x : option Z) (s : Component) : Component :=
  {| verificationIntervalRef := verificationIntervalRef s;
     timerIntervalRef := timerIntervalRef s;
     startTimeRef := x;
     isVerifiedRef := isVerifiedRef s;
     walletBalanceIntervalRef := walletBalanceIntervalRef s;
     transactionVerified := transactionVerified s;
     transactionTime := transactionTime s;
     remainingPixels := remainingPixels s;
     timers := timers s;
     pending := pending s;
     loops := loops s;
     nextId := nextId s;
     log := log s |}.

Definition with_isVerifiedRef (x : bool) (s : Component) : Component :=
  {| verificationIntervalRef := verificationIntervalRef s;
     timerIntervalRef := timerIntervalRef s;
     startTimeRef := startTimeRef s;
     isVerifiedRef := x;
     walletBalanceIntervalRef := walletBalanceIntervalRef s;
     transactionVerified := transactionVerified s;
     transactionTime := transactionTime s;
     remainingPixels := remainingPixels s;
     timers := timers s;
     pending := pending s;
     loops := loops s;
     nextId := nextId s;
     log := log s |}.

Definition with_walletBalanceIntervalRef (x : option nat) (s : Component) : Component :=
  {| verificationIntervalRef := verificationIntervalRef s;
     timerIntervalRef := timerIntervalRef s;
     startTimeRef := startTimeRef s;
     isVerifiedRef := isVerifiedRef s;
     walletBalanceIntervalRef := x;
     transactionVerified := transactionVerified s;
     transactionTime := transactionTime s;
     remainingPixels := remainingPixels s;
     timers := timers s;
     pending := pending s;
     loops := loops s;
     nextId := nextId s;
     log := log s |}.

Definition with_transactionVerified (x : bool) (s : Component) : Component :=
  {| verificationIntervalRef := verificationIntervalRef s;
     timerIntervalRef := timerIntervalRef s;
     startTimeRef := startTimeRef s;
     isVerifiedRef := isVerifiedRef s;
     walletBalanceIntervalRef := walletBalanceIntervalRef s;
     transactionVerified := x;
     transactionTime := transactionTime s;
     remainingPixels := remainingPixels s;
     timers := timers s;
     pending := pending s;
     loops := loops s;
     nextId := nextId s;
     log := log s |}.

Definition with_transactionTime (x : option Z) (s : Component) : Component :=
  {| verificationIntervalRef := verificationIntervalRef s;
     timerIntervalRef := timerIntervalRef s;
     startTimeRef := startTimeRef s;
     isVerifiedRef := isVerifiedRef s;
     walletBalanceIntervalRef := walletBalanceIntervalRef s;
     transactionVerified := transactionVerified s;
     transactionTime := x;
     remainingPixels := remainingPixels s;
     timers := timers s;
     pending := pending s;
     loops := loops s;
     nextId := nextId s;
     log := log s |}.

Definition with_remainingPixels (x : Z) (s : Component) : Component :=
  {| verificationIntervalRef := verificationIntervalRef s;
     timerIntervalRef := timerIntervalRef s;
     startTimeRef := startTimeRef s;
     isVerifiedRef := isVerifiedRef s;
     walletBalanceIntervalRef := walletBalanceIntervalRef s;
     transactionVerified := transactionVerified s;
     transactionTime := transactionTime s;
     remainingPixels := x;
     timers := timers s;
     pending := pending s;
     loops := loops s;
     nextId := nextId s;
     log := log s |}.

Definition with_timers (x : gmap nat TimerCallback) (s : Component) : Component :=
  {| verificationIntervalRef := verificationIntervalRef s;
     timerIntervalRef := timerIntervalRef s;
     startTimeRef := startTimeRef s;
     isVerifiedRef := isVerifiedRef s;
     walletBalanceIntervalRef := walletBalanceIntervalRef s;
     transactionVerified := transactionVerified s;
     transactionTime := transactionTime s;
     remainingPixels := remainingPixels s;
     timers := x;
     pending := pending s;
     loops := loops s;
     nextId := nextId s;
     log := log s |}.

Definition with_pending (x : gmap nat Continuation) (s : Component) : Component :=
  {| verificationIntervalRef := verificationIntervalRef s;
     timerIntervalRef := timerIntervalRef s;
     startTimeRef := startTimeRef s;
     isVerifiedRef := isVerifiedRef s;
     walletBalanceIntervalRef := walletBalanceIntervalRef s;
     transactionVerified := transactionVerified s;
     transactionTime := transactionTime s;
     remainingPixels := remainingPixels s;
     timers := timers s;
     pending := x;
     loops := loops s;
     nextId := nextId s;
     log := log s |}.

Definition with_loops (x : gmap nat BalanceLoop) (s : Component) : Component :=
  {| verificationIntervalRef := verificationIntervalRef s;
     timerIntervalRef := timerIntervalRef s;
     startTimeRef := startTimeRef s;
     isVerifiedRef := isVerifiedRef s;
     walletBalanceIntervalRef := walletBalanceIntervalRef s;
     transactionVerified := transactionVerified s;
     transactionTime := transactionTime s;
     remainingPixels := remainingPixels s;
     timers := timers s;
     pending := pending s;
     loops := x;
     nextId := nextId s;
     log := log s |}.

Definition with_nextId (x : nat) (s : Component) : Component :=
  {| verificationIntervalRef := verificationIntervalRef s;
     timerIntervalRef := timerIntervalRef s;
     startTimeRef := startTimeRef s;
     isVerifiedRef := isVerifiedRef s;
     walletBalanceIntervalRef := walletBalanceIntervalRef s;
     transactionVerified := transactionVerified s;
     transactionTime := transactionTime s;
     remainingPixels := remainingPixels s;
     timers := timers s;
     pending := pending s;
     loops := loops s;
     nextId := x;
     log := log s |}.

Definition with_log (x : list Effect) (s : Component) : Component :=
  {| verificationIntervalRef := verificationIntervalRef s;
     timerIntervalRef := timerIntervalRef s;
     startTimeRef := startTimeRef s;
     isVerifiedRef := isVerifiedRef s;
     walletBalanceIntervalRef := walletBalanceIntervalRef s;
     transactionVerified := transactionVerified s;
     transactionTime := transactionTime s;
     remainingPixels := remainingPixels s;
     timers := timers s;
     pending := pending s;
     loops := loops s;
     nextId := nextId s;
     log := x |}.

(** The component as mounted: no timer, nothing pending. *)
Definition mounted (balance : Z) : Component :=
  {| verificationIntervalRef := None; timerIntervalRef := None;
     startTimeRef := None; isVerifiedRef := false;
     walletBalanceIntervalRef := None; transactionVerified := false;
     transactionTime := None; remainingPixels := balance;
     timers := ∅; pending := ∅; loops := ∅; nextId := 1; log := [] |}.

(** [setInterval] and [setTimeout]: a fresh id for the callback.  Ids are
    positive, as the browser's are, so a ref that holds one is truthy. *)
Definition setTimer (cb : TimerCallback) (s : Component) : nat * Component :=
  (nextId s,
   with_nextId (S (nextId s)) (with_timers (<[nextId s := cb]> (timers s)) s)).

(** [clearInterval(id)] and [clearTimeout(id)]. *)
Definition clearTimer (id : nat) (s : Component) : Component :=
  with_timers (delete id (timers s)) s.

(** [if (ref.current) clearInterval(ref.current)]. *)
Definition clearIfSet (ref : option nat) (s : Component) : Component :=
  match ref with
  | Some id => clearTimer id s
  | None => s
  end.

(** An [await] on a request: the continuation waits under a fresh id. *)
Definition await (k : Continuation) (s : Component) : Component :=
  with_nextId (S (nextId s)) (with_pending (<[nextId s := k]> (pending s)) s).

Definition stopVerificationInterval (s : Component) : Component :=
  with_verificationIntervalRef None (clearIfSet (verificationIntervalRef s) s).

Definition stopTimerInterval (s : Component) : Component :=
  with_timerIntervalRef None (clearIfSet (timerIntervalRef s) s).

Definition stopWalletBalanceInterval (s : Component) : Component :=
  with_walletBalanceIntervalRef None (clearIfSet (walletBalanceIntervalRef s) s).

(** [ref.current || fallback] for a time: null and 0 are falsy. *)
Definition orElse (ref : option Z) (fallback : Z) : Z :=
  match ref with
  | Some t => if t =? 0 then fallback else t
  | None => fallback
  end.

Definition maxPollingTime : Z := 2 * 60 * 1000.

Definition updateLoop (loop : nat) (L : BalanceLoop) (s : Component) : Component :=
  with_loops (<[loop := L]> (loops s)) s.

Definition setLastPolledBalance (b : Z) (L : BalanceLoop) : BalanceLoop :=
  {| closure := closure L; initialBalance := initialBalance L;
     expectedBalance := expectedBalance L; lastPolledBalance := b;
     pollCount := pollCount L; zeroBalanceCount := zeroBalanceCount L;
     pollingStartTime := pollingStartTime L |}.

Definition setPollCount (n : Z) (L : BalanceLoop) : BalanceLoop :=
  {| closure := closure L; initialBalance := initialBalance L;
     expectedBalance := expectedBalance L;
     lastPolledBalance := lastPolledBalance L;
     pollCount := n; zeroBalanceCount := zeroBalanceCount L;
     pollingStartTime := pollingStartTime L |}.

Definition setZeroBalanceCount (n : Z) (L : BalanceLoop) : BalanceLoop :=
  {| closure := closure L; initialBalance := initialBalance L;
     expectedBalance := expectedBalance L;
     lastPolledBalance := lastPolledBalance L;
     pollCount := pollCount L; zeroBalanceCount := n;
     pollingStartTime := pollingStartTime L |}.

(** [checkBalance], up to [await getWalletBalance(address)]. *)
Definition checkBalance (loop : nat) (s : Component) : Component :=
  match loops s !! loop with
  | Some L =>
      match walletReady (closure L) with
      | None => s
      | Some _ =>
          await (afterBalancePoll loop)
            (updateLoop loop (setPollCount (pollCount L + 1) L) s)
      end
  | None => s
  end.

(** The end of [checkBalance]: the check of the polling time. *)
Definition checkPollingTime (loop : nat) (L : BalanceLoop) (now : Z)
    (s : Component) : Component :=
  let s := updateLoop loop L s in
  if maxPollingTime <? now - pollingStartTime L
  then stopWalletBalanceInterval s
  else s.

(** [checkBalance], from the point where [getWalletBalance] settles. *)
Definition checkBalance_resume (loop : nat) (r : BalanceResponse) (now : Z)
    (s : Component) : Component :=
  match loops s !! loop with
  | Some L =>
      match fst (getWalletBalance (default "" (walletReady (closure L))) r) with
      | Throw _ => s
      | Return currentBalance =>
          let s := with_remainingPixels currentBalance s in
          if expectedBalance L <=? currentBalance
          then stopWalletBalanceInterval s
          else
            let L := setLastPolledBalance currentBalance L in
            if (currentBalance =? 0) && (0 <? lastPolledBalance L) then
              let L := setZeroBalanceCount (zeroBalanceCount L + 1) L in
              if (3 <=? zeroBalanceCount L) && (5 <=? pollCount L)
              then stopWalletBalanceInterval (updateLoop loop L s)
              else checkPollingTime loop L now s
            else checkPollingTime loop (setZeroBalanceCount 0 L) now s
      end
  | None => s
  end.

(** The [.then] callback of [startWalletBalancePolling], run with the
    balance [checkCurrentBalance] resolved to. *)
Definition startPolling (initial pixelsPurchased : Z) (c : Closure)
    (actualInitialBalance : Z) (now : Z) (s : Component) : Component :=
  if initial + pixelsPurchased <=? actualInitialBalance
  then with_remainingPixels actualInitialBalance s
  else
    let loop := nextId s in
    let L := {| closure := c; initialBalance := initial;
                expectedBalance := initial + pixelsPurchased;
                lastPolledBalance := actualInitialBalance;
                pollCount := 0; zeroBalanceCount := 0;
                pollingStartTime := now |} in
    let s := with_nextId (S loop) (updateLoop loop L s) in
    let s := checkBalance loop s in
    let '(interval, s) := setTimer (balanceTick loop) s in
    let s := with_walletBalanceIntervalRef (Some interval) s in
    snd (setTimer balanceSafetyTimeout s).

(** [startWalletBalancePolling(pixelsPurchased, providedInitialBalance)].
    With no wallet, [checkCurrentBalance] resolves at once to the initial
    balance; otherwise the callback waits for [getWalletBalance]. *)
Definition startWalletBalancePolling (pixelsPurchased : Z)
    (providedInitialBalance : option Z) (c : Closure) (now : Z)
    (s : Component) : Component :=
  let s := stopWalletBalanceInterval s in
  let initial := default (closedRemainingPixels c) providedInitialBalance in
  match walletReady c with
  | None => startPolling initial pixelsPurchased c initial now s
  | Some _ => await (afterCurrentBalance initial pixelsPurchased c) s
  end.

(** [verifyTransactionWithBackend(txId, packs, initialBalance)]. *)
Definition verifyTransactionWithBackend (txId : string) (packs : Z)
    (initialBalance : option Z) (c : Closure) (now : Z) (s : Component)
  : Component :=
  let s := stopVerificationInterval s in
  let s := stopTimerInterval s in
  let s := with_startTimeRef (Some now) s in
  let s := with_isVerifiedRef false s in
  let s := with_transactionVerified false s in
  let s := with_transactionTime (Some 0) s in
  let '(ticker, s) := setTimer elapsedTick s in
  let s := with_timerIntervalRef (Some ticker) s in
  let '(poller, s) :=
    setTimer (verificationTick txId packs initialBalance c) s in
  with_verificationIntervalRef (Some poller) s.

(** The elapsed-time ticker. *)
Definition elapsedTick_run (now : Z) (s : Component) : Component :=
  match startTimeRef s with
  | Some start =>
      if (start =? 0) || isVerifiedRef s then s
      else with_transactionTime (Some (now - start)) s
  | None => s
  end.

(** The verification poll, up to [await verifyTransaction(txId)]. *)
Definition verificationTick_run (txId : string) (packs : Z)
    (initialBalance : option Z) (c : Closure) (s : Component) : Component :=
  if isVerifiedRef s then stopVerificationInterval s
  else await (afterVerify txId packs initialBalance c) s.

(** The confirmation block of the verification poll: the body of
    [if (result.verified && !isVerifiedRef.current)].  The bookkeeping of
    the fastest confirmation time ([setFastestTransactionTime],
    [localStorage]) reads and writes no ref and no timer and is left out. *)
Definition confirmationBlock (txId : string) (packs : Z)
    (initialBalance : option Z) (c : Closure) (now : Z) (s : Component)
  : Component :=
  let s := with_isVerifiedRef true s in
  let s := with_transactionVerified true s in
  let s := stopVerificationInterval s in
  let s := stopTimerInterval s in
  let confirmationTime := now - orElse (startTimeRef s) now in
  let s := with_transactionTime (Some confirmationTime) s in
  let s := with_log (log s ++ [confirmationProcessed txId confirmationTime]) s in
  let totalPixelsPurchased := packs * pixelPackSize c in
  let actualInitialBalance :=
    default (closedRemainingPixels c) initialBalance in
  let s := with_log (log s ++ [walletBalancePollingStarted
                                 totalPixelsPurchased
                                 actualInitialBalance]) s in
  startWalletBalancePolling totalPixelsPurchased
    (Some actualInitialBalance) c now s.

(** The verification poll, from the point where [verifyTransaction]
    settles: the confirmation block, or nothing.  A thrown error ends in
    the [catch], which only logs. *)
Definition verificationTick_resume (txId : string) (packs : Z)
    (initialBalance : option Z) (c : Closure) (r : VerifyResponse) (now : Z)
    (s : Component) : Component :=
  match fst (verifyTransaction txId r) with
  | Throw _ => s
  | Return verified =>
      if verified && negb (isVerifiedRef s)
      then confirmationBlock txId packs initialBalance c now s
      else s
  end.

(** The safety timeout of the balance loop. *)
Definition balanceSafetyTimeout_run (s : Component) : Component :=
  stopWalletBalanceInterval s.

(** The clean-up of the unmount effect: the three intervals are cleared,
    the refs keep their ids. *)
Definition unmount (s : Component) : Component :=
  clearIfSet (walletBalanceIntervalRef s)
    (clearIfSet (timerIntervalRef s)
       (clearIfSet (verificationIntervalRef s) s)).

(** What happens to the component. *)
Inductive Event :=
| buy (txId : string) (packs : Z) (initialBalance : option Z) (c : Closure)
    (now : Z)
| timerFires (id : nat) (now : Z)
| verifySettles (id : nat) (r : VerifyResponse) (now : Z)
| balanceSettles (id : nat) (r : BalanceResponse) (now : Z)
| teardown.

(** One turn of the event loop.  A timer that was cleared does not fire
    and a promise settles once: such events leave the state alone. *)
Definition step (s : Component) (e : Event) : Component :=
  match e with
  | buy txId packs initialBalance c now =>
      verifyTransactionWithBackend txId packs initialBalance c now s
  | timerFires id now =>
      match timers s !! id with
      | Some elapsedTick => elapsedTick_run now s
      | Some (verificationTick txId packs initialBalance c) =>
          verificationTick_run txId packs initialBalance c s
      | Some (balanceTick loop) => checkBalance loop s
      | Some balanceSafetyTimeout =>
          balanceSafetyTimeout_run (clearTimer id s)
      | None => s
      end
  | verifySettles id r now =>
      match pending s !! id with
      | Some (afterVerify txId packs initialBalance c) =>
          verificationTick_resume txId packs initialBalance c r now
            (with_pending (delete id (pending s)) s)
      | _ => s
      end
  | balanceSettles id r now =>
      match pending s !! id with
      | Some (afterCurrentBalance initial pixelsPurchased c) =>
          let s := with_pending (delete id (pending s)) s in
          let actualInitialBalance :=
            match fst (getWalletBalance (default "" (walletReady c)) r) with
            | Return currentBalance => currentBalance
            | Throw _ => initial
            end in
          startPolling initial pixelsPurchased c actualInitialBalance now s
      | Some (afterBalancePoll loop) =>
          checkBalance_resume loop r now
            (with_pending (delete id (pending s)) s)
      | _ => s
      end
  | teardown => unmount s
  end.

Definition run (s : Component) (events : list Event) : Component :=
  foldl step s events.

(** How many times the confirmation block ran for [txId]. *)
Definition isConfirmationOf (txId : string) (e : Effect) : bool :=
  match e with
  | confirmationProcessed t _ => String.eqb t txId
  | walletBalancePollingStarted _ _ => false
  end.

Definition confirmations (txId : string) (s : Component) : nat :=
  length (filter (fun e => isConfirmationOf txId e = true) (log s)).

(** [e] settles a poll of one of the two loops with a failed query. *)
Definition isFailedPoll (s : Component) (e : Event) : bool :=
  match e with
  | verifySettles id r _ =>
      match pending s !! id with
      | Some (afterVerify _ _ _ _) => verifyFailed r
      | _ => false
      end
  | balanceSettles id r _ =>
      match pending s !! id with
      | Some (afterBalancePoll _) => queryFailed r
      | _ => false
      end
  | _ => false
  end.

(** The stop conditions of the balance loop that do not depend on the
    history, for a poll that observed [observed] at time [now]. *)
Definition stopConditionMet (L : BalanceLoop) (observed now : Z) : bool :=
  (expectedBalance L <=? observed) || (maxPollingTime <? now - pollingStartTime L).

(** A stop condition of its own loop holds when the failed poll [e]
    settles; the balance loop sees a failed query as a balance of 0. *)
Definition ownStopConditionMet (s : Component) (e : Event) : bool :=
  match e with
  | balanceSettles id _ now =>
      match pending s !! id with
      | Some (afterBalancePoll loop) =>
          match loops s !! loop with
          | Some L => stopConditionMet L 0 now
          | None => false
          end
      | _ => false
      end
  | _ => false
  end.

Definition isBuy (e : Event) : bool :=
  match e with
  | buy _ _ _ _ _ => true
  | _ => false
  end.

(** [s'] has the verification flag and the log of [s]. *)
Definition sameVerdict (s s' : Component) : Prop :=
  log s' = log s /\ isVerifiedRef s' = isVerifiedRef s.

End Polling.

(** ** Concrete runs *)

Module Scenarios.

(** *** Merging *)

(** A view with one cell loaded by the initial fetch and no click made. *)
Definition fetchedView : Merge.ClientView :=
  {| Merge.canvasState := ∅;
     Merge.localCanvasState := {[ "0,0" := "#70C7BA" ]} |}.

Definition snapshotOnReconnect : gmap string string :=
  {[ "10,10" := "#FF0000" ]}.

(** A view in which the user has just painted cell (0,0) red, the write
    not acknowledged yet, and a snapshot that still has the cell white. *)
Definition paintedView : Merge.ClientView :=
  {| Merge.canvasState := ∅;
     Merge.localCanvasState := {[ "0,0" := "#FF0000" ]} |}.

Definition staleSnapshot : gmap string string :=
  {[ "0,0" := "#FFFFFF" ]}.

(** Two writes to cell (0,0): red accepted first, blue accepted last. *)
Definition redFirst : Merge.AcceptedWrite :=
  {| Merge.wx := 0; Merge.wy := 0; Merge.wcolor := "#FF0000";
     Merge.acceptedAt := 1 |}.

Definition blueLast : Merge.AcceptedWrite :=
  {| Merge.wx := 0; Merge.wy := 0; Merge.wcolor := "#0000FF";
     Merge.acceptedAt := 2 |}.

Definition emptyView : Merge.ClientView :=
  {| Merge.canvasState := ∅; Merge.localCanvasState := ∅ |}.

(** *** Clicks *)

Definition desktopProps : Click.Props :=
  {| Click.isMobile := false; Click.isConnected := true;
     Click.address := Some "kaspa:qz0example";
     Click.backendStatus := Click.online; Click.selectedColor := "#FF0000";
     Click.canvasWidth := 1000; Click.canvasHeight := 1000;
     Click.canvasMounted := true |}.

Definition mobileProps : Click.Props :=
  {| Click.isMobile := true; Click.isConnected := false;
     Click.address := None;
     Click.backendStatus := Click.online; Click.selectedColor := "#FF0000";
     Click.canvasWidth := 1000; Click.canvasHeight := 1000;
     Click.canvasMounted := true |}.

Definition clickAtOrigin : Click.ClickEvent :=
  {| Click.rawX := 3; Click.rawY := 4; Click.timestamp := 1700000000000;
     Click.randomStr := "k3x9q2ab" |}.

(** A view whose cell (0,0) holds the server's white and whose local
    estimate of the balance is one pixel. *)
Definition whiteCellView : Click.View :=
  {| Click.localCanvasState := {[ "0,0" := "#FFFFFF" ]};
     Click.remainingPixels := 1;
     Click.showPurchaseModal := false;
     Click.showMobileMessage := false;
     Click.toasts := [];
     Click.placePixelCalls := [] |}.

(** The same view with no pixel left. *)
Definition brokeView : Click.View :=
  {| Click.localCanvasState := {[ "0,0" := "#FFFFFF" ]};
     Click.remainingPixels := 0;
     Click.showPurchaseModal := false;
     Click.showMobileMessage := false;
     Click.toasts := [];
     Click.placePixelCalls := [] |}.

Definition insufficient : Click.PlacePixelResult :=
  Click.thrown "Failed to place pixel: 400 - Insufficient pixel balance".

(** The view when the answer to a click on the white cell arrives, after a
    broadcast merged while the request was out has repainted that cell
    blue. *)
Definition repaintedView : Click.View :=
  {| Click.localCanvasState := {[ "0,0" := "#0000FF" ]};
     Click.remainingPixels := 1;
     Click.showPurchaseModal := false;
     Click.showMobileMessage := false;
     Click.toasts := [];
     Click.placePixelCalls := [] |}.

(** *** The connection *)

(** The socket opens, the component unmounts, the socket's [close] event
    arrives. *)
Definition connectedThenUnmounted : list WebSocketHook.Event :=
  [WebSocketHook.mount; WebSocketHook.opened 1; WebSocketHook.teardown;
   WebSocketHook.closed 1].

(** *** The timed loops *)

Import Api Polling.

Definition wallet : Closure :=
  {| pixelPackSize := 10; closedRemainingPixels := 5; isConnected := true;
     address := Some "kaspa:qz0example";
     transaction_check_interval := Some 1000 |}.

Definition t0 : Z := 1700000000000.

(** Two polls for transaction A are in flight; the second comes back
    verified; the user buys again (transaction B); then the first poll for
    A comes back verified too. *)
Definition stalePollTrace : list Event :=
  [ buy "txA" 1 (Some 5) wallet t0;
    timerFires 2 (t0 + 1000);
    timerFires 2 (t0 + 2000);
    verifySettles 4 (verifyBody true) (t0 + 2100);
    buy "txB" 1 (Some 15) wallet (t0 + 9000);
    verifySettles 3 (verifyBody true) (t0 + 9100) ].

(** A purchase of 10 pixels on a balance of 5 is verified at the first
    poll, and the balance loop starts (loop 5, interval 7, safety timeout
    8) with its immediate check in flight (promise 6). *)
Definition verifiedPurchase : list Event :=
  [ buy "txA" 1 (Some 5) wallet t0;
    timerFires 2 (t0 + 1000);
    verifySettles 3 (verifyBody true) (t0 + 1100);
    balanceSettles 4 (balanceBody 5) (t0 + 1200) ].

(** The balance is then read as 5, 5, 0, 0, 0, 0: polls 3 to 6 see it
    drop to zero. *)
Definition zeroBalanceTrace : list Event :=
  verifiedPurchase ++
  [ balanceSettles 6 (balanceBody 5) (t0 + 1300);
    timerFires 7 (t0 + 1700); balanceSettles 9 (balanceBody 5) (t0 + 1800);
    timerFires 7 (t0 + 2200); balanceSettles 10 (balanceBody 0) (t0 + 2300);
    timerFires 7 (t0 + 2700); balanceSettles 11 (balanceBody 0) (t0 + 2800);
    timerFires 7 (t0 + 3200); balanceSettles 12 (balanceBody 0) (t0 + 3300);
    timerFires 7 (t0 + 3700); balanceSettles 13 (balanceBody 0) (t0 + 3800) ].

(** The component unmounts while [checkCurrentBalance] is in flight. *)
Definition unmountedWhileChecking : list Event :=
  [ buy "txA" 1 (Some 5) wallet t0;
    timerFires 2 (t0 + 1000);
    verifySettles 3 (verifyBody true) (t0 + 1100);
    teardown;
    balanceSettles 4 (balanceBody 5) (t0 + 1200) ].

End Scenarios.

(** ** The stream URL *)

Module Url.

(** [window.location.protocol === 'https:' ? 'wss:' : 'ws:']. *)
Definition wsProtocol (pageProtocol : string) : string :=
  if String.eqb pageProtocol "https:" then "wss:" else "ws:".

(** [WS_URL] of [PixelCanvas]: the stream endpoint of the page's host in a
    browser, the bare path otherwise. *)
Definition WS_URL (inBrowser : bool) (pageProtocol host : string) : string :=
  if inBrowser then wsProtocol pageProtocol +:+ "//" +:+ host +:+ "/ws"
  else "/ws".

(** The [wsUrl] that [connectWebSocket] computes from the hook's [url]. *)
Definition wsUrl (inBrowser : bool) (pageProtocol host url : string) : string :=
  if inBrowser then
    if Click.startsWith "ws://" url || Click.startsWith "wss://" url then url
    else if Click.startsWith "/" url
         then wsProtocol pageProtocol +:+ "//" +:+ host +:+ url
         else wsProtocol pageProtocol +:+ "//" +:+ host +:+ "/ws"
  else url.

End Url.

(** ** [useApi]: the other endpoints *)

Module Fetch.
Import Api.

(** What [fetch], [response.text()] and [response.json()] give: [status]
    is a response whose [ok] is false, with its text. *)
Inductive Response (A : Type) :=
| networkError (message : string)
| status (code : Z) (text : string)
| unparsable (message : string)
| body (data : A).
Arguments networkError {A} message.
Arguments status {A} code text.
Arguments unparsable {A} message.
Arguments body {A} data.

Definition failed {A : Type} (r : Response A) : bool :=
  match r with
  | body _ => false
  | _ => true
  end.

(** A row of the pixel table, as the backend lists it. *)
Record PixelData := {
  id : Z;
  x : Z;
  y : Z;
  color : string;
  wallet_address : string;
  transaction_id : string;
  created_at : string;
}.

(** [fetchPixels]: [catch] stores the message and returns [[]]. *)
Definition fetchPixels (r : Response (list PixelData))
  : Completion (list PixelData) * ApiState :=
  match r with
  | body data => (Return data, {| isLoading := false; error := None |})
  | networkError message | unparsable message =>
      (Return [], {| isLoading := false; error := Some message |})
  | status code _ =>
      (Return [],
       {| isLoading := false;
          error := Some ("Failed to fetch pixels: " +:+ pretty code) |})
  end.

(** [placePixel]: a non-OK response is thrown with its status and text, and
    [catch] rethrows.  The data is the response's optional
    [remaining_balance]. *)
Definition placePixel (r : Response (option Z))
  : Completion (option Z) * ApiState :=
  match r with
  | body data => (Return data, {| isLoading := false; error := None |})
  | networkError message | unparsable message =>
      (Throw message, {| isLoading := false; error := Some message |})
  | status code text =>
      let message :=
        "Failed to place pixel: " +:+ pretty code +:+ " - " +:+ text in
      (Throw message, {| isLoading := false; error := Some message |})
  end.

(** What [handlePixelClick] gets from its [await placePixel(...)]. *)
Definition placePixelResult (r : Response (option Z)) : Click.PlacePixelResult :=
  match fst (placePixel r) with
  | Return remaining_balance => Click.placed remaining_balance
  | Throw message => Click.thrown message
  end.

(** The answer of the purchase endpoint. *)
Record PurchaseData := {
  purchaseStatus : string;
  new_balance : option Z;
  pixels_added : option Z;
}.

(** [purchasePixels]: the same shape as [placePixel]. *)
Definition purchasePixels (r : Response PurchaseData)
  : Completion PurchaseData * ApiState :=
  match r with
  | body data => (Return data, {| isLoading := false; error := None |})
  | networkError message | unparsable message =>
      (Throw message, {| isLoading := false; error := Some message |})
  | status code text =>
      let message :=
        "Failed to process purchase: " +:+ pretty code +:+ " - " +:+ text in
      (Throw message, {| isLoading := false; error := Some message |})
  end.

End Fetch.

(** ** [PixelCanvas]: the initial canvas and the pack counter *)

Module Boot.
Import Api Fetch.

(** The state the initial fetch writes. *)
Record Boot := {
  localCanvasState : gmap string string;
  backendStatus : Click.BackendStatus;
  toasts : list Click.Toast;
}.

(** [SAMPLE_PIXELS]: the empty object. *)
Definition SAMPLE_PIXELS : gmap string string := ∅.

(** [pixelsArray.forEach(pixel => pixelsObject[`${pixel.x},${pixel.y}`] =
    pixel.color)], from the empty object. *)
Definition pixelsObject (pixelsArray : list PixelData) : gmap string string :=
  foldl (fun acc pixel => <[pixelKey (x pixel) (y pixel) := color pixel]> acc)
    ∅ pixelsArray.

Definition backendConnectionIssue : Click.Toast :=
  {| Click.title := "Backend Connection Issue";
     Click.description :=
       "Could not connect to the backend server. Using sample pixels instead.";
     Click.destructive := true |}.

(** [fetchInitialCanvas], given what the request of [fetchPixels] met. *)
Definition fetchInitialCanvas (r : Response (list PixelData)) (b : Boot) : Boot :=
  match fst (fetchPixels r) with
  | Return pixelsArray =>
      if (0 <? length pixelsArray)%nat
      then {| localCanvasState := pixelsObject pixelsArray;
              backendStatus := Click.online;
              toasts := toasts b |}
      else {| localCanvasState := SAMPLE_PIXELS;
              backendStatus := backendStatus b;
              toasts := toasts b |}
  | Throw _ =>
      {| localCanvasState := SAMPLE_PIXELS;
         backendStatus := Click.offline;
         toasts := toasts b ++ [backendConnectionIssue] |}
  end.

(** The last pixel of the array, in array order, at cell key [k]. *)
Definition lastListed (k : string) (pixelsArray : list PixelData)
  : option PixelData :=
  last (filter (fun pixel => pixelKey (x pixel) (y pixel) = k) pixelsArray).

(** [fetchBalance]: with no wallet the balance shown is 0; otherwise it is
    what [getWalletBalance] returns. *)
Definition fetchBalance (p : Click.Props) (r : BalanceResponse)
    (v : Click.View) : Click.View :=
  let wallet :=
    if Click.isConnected p then
      match Click.address p with
      | Some a => if String.eqb a "" then None else Some a
      | None => None
      end
    else None in
  match wallet with
  | None => Click.setRemainingPixels (fun _ => 0) v
  | Some a =>
      match fst (getWalletBalance a r) with
      | Return balance => Click.setRemainingPixels (fun _ => balance) v
      | Throw _ => v
      end
  end.

(** [incrementPacks] and [decrementPacks]. *)
Definition incrementPacks (prev : Z) : Z := Z.min (prev + 1) 10.
Definition decrementPacks (prev : Z) : Z := Z.max (prev - 1) 1.

Inductive PackButton := plus | minus.

Definition press (packsToBuy : Z) (b : PackButton) : Z :=
  match b with
  | plus => incrementPacks packsToBuy
  | minus => decrementPacks packsToBuy
  end.

End Boot.

(** ** [ColorPicker] *)

Module ColorPicker.

Definition inRange (lo hi a : ascii) : bool :=
  (nat_of_ascii lo <=? nat_of_ascii a)%nat && (nat_of_ascii a <=? nat_of_ascii hi)%nat.

(** [[0-9A-Fa-f]]. *)
Definition isHexDigit (a : ascii) : bool :=
  inRange "0" "9" a || inRange "A" "F" a || inRange "a" "f" a.

Fixpoint allHexDigits (s : string) : bool :=
  match s with
  | EmptyString => true
  | String a s' => isHexDigit a && allHexDigits s'
  end.

(** [/^#[0-9A-Fa-f]{6}$/.test(hex)]. *)
Definition isValidHex (hex : string) : bool :=
  match hex with
  | String a rest =>
      Ascii.eqb a "#" && (String.length rest =? 6)%nat && allHexDigits rest
  | EmptyString => false
  end.

Definition PRESET_COLORS : list string :=
  [ "#70C7BA"; "#49EACB"; "#231F20"; "#B6B6B6"; "#FFFFFF"; "#000000";
    "#FF5555"; "#55FF55"; "#5555FF"; "#FFFF55"; "#FF55FF"; "#55FFFF";
    "#FF9955"; "#9955FF" ].

(** [DEFAULT_COLOR] of [PixelCanvas], the first [selectedColor]. *)
Definition DEFAULT_COLOR : string := "#70C7BA".

(** The picker's own state and the [selectedColor] of its parent, which
    [onColorChange] sets. *)
Record Picker := {
  isOpen : bool;
  currentColor : string;
  selectedColor : string;
}.

Definition initial : Picker :=
  {| isOpen := false; currentColor := DEFAULT_COLOR;
     selectedColor := DEFAULT_COLOR |}.

(** What the user does.  The colour wheel and the lightness slider go
    through [hslToHex], whose result is taken as given; a preset is chosen
    by its position in [PRESET_COLORS]. *)
Inductive Action :=
| setOpen (open : bool)
| wheelClick (hex : string)
| lightnessChange (hex : string)
| hexChange (value : string)
| applyCurrentColor
| presetSelect (index : nat).

Definition act (p : Picker) (a : Action) : Picker :=
  match a with
  | setOpen open =>
      {| isOpen := open; currentColor := currentColor p;
         selectedColor := selectedColor p |}
  | wheelClick hex | lightnessChange hex =>
      {| isOpen := isOpen p; currentColor := hex;
         selectedColor := selectedColor p |}
  | hexChange value =>
      {| isOpen := isOpen p;
         currentColor := if Click.startsWith "#" value then value
                         else "#" +:+ value;
         selectedColor := selectedColor p |}
  | applyCurrentColor =>
      if isValidHex (currentColor p)
      then {| isOpen := false; currentColor := currentColor p;
              selectedColor := currentColor p |}
      else p
  | presetSelect index =>
      match PRESET_COLORS !! index with
      | Some color =>
          {| isOpen := false; currentColor := color; selectedColor := color |}
      | None => p
      end
  end.

Definition run (p : Picker) (actions : list Action) : Picker :=
  foldl act p actions.

End ColorPicker.

(** ** [WalletProvider]: [sendTransaction] *)

Module Wallet.

(** What is thrown: an [Error] with its message, or some other value. *)
Inductive Thrown :=
| anError (message : string)
| otherValue.

(** What [window.kasware.sendKaspa] does: it resolves, maybe to nothing, or
    it rejects. *)
Inductive SendKaspa :=
| resolves (txId : option string)
| rejects (e : Thrown).

(** A call of [window.kasware.sendKaspa(toAddress, sompi, txOptions)]. *)
Record SendKaspaCall := {
  toAddress : string;
  sompiAmount : Z;
  priorityFee : option Z;
}.

(** How [sendTransaction] completes. *)
Inductive Sent :=
| returned (txId : option string)
| threw (e : Thrown).

(** What a call of [sendTransaction] leaves behind. *)
Record Outcome := {
  completion : Sent;
  toasts : list Click.Toast;
  calls : list SendKaspaCall;
}.

Definition destructiveToast (title description : string) : Click.Toast :=
  {| Click.title := title; Click.description := description;
     Click.destructive := true |}.

(** [error instanceof Error ? error.message : fallback]. *)
Definition messageOr (fallback : string) (e : Thrown) : string :=
  match e with
  | anError message => message
  | otherValue => fallback
  end.

Definition transactionFailed (e : Thrown) : Click.Toast :=
  destructiveToast "Transaction failed"
    (messageOr "Failed to send transaction. Please try again." e).

(** [sendTransaction(toAddress, sompi, options)].  [kasware] tells whether
    [window.kasware] is there and what its [sendKaspa] does; [options] is
    the optional argument with its optional [priorityFee]. *)
Definition sendTransaction (isInstalled isConnected : bool)
    (kasware : option SendKaspa) (to : string) (sompi : Z)
    (options : option (option Z)) : Outcome :=
  if negb isInstalled then
    {| completion := threw (anError "Wallet not installed");
       toasts := [destructiveToast "Wallet not installed"
                    "Please install the KasWare wallet extension to continue."];
       calls := [] |}
  else if negb isConnected then
    {| completion := threw (anError "Wallet not connected");
       toasts := [destructiveToast "Wallet not connected"
                    "Please connect your KasWare wallet to continue."];
       calls := [] |}
  else
    let call := {| toAddress := to; sompiAmount := sompi;
                   priorityFee := default (Some 1) options |} in
    match kasware with
    | Some (resolves txId) =>
        {| completion := returned txId; toasts := []; calls := [call] |}
    | Some (rejects e) =>
        {| completion := threw e; toasts := [transactionFailed e];
           calls := [call] |}
    | None =>
        let e := anError "Kasware wallet not available" in
        {| completion := threw e; toasts := [transactionFailed e];
           calls := [] |}
    end.

End Wallet.

(** ** [PixelCanvas]: [handleBuyPixels] *)

Module Purchase.
Import Api.

(** The values of the render that [handleBuyPixels] closes over.
    [formattedTotal] is [formatKasPrice(totalCost)], taken as given.
    [verifyTransactionWithBackend] is memoised on
    [config?.transaction_check_interval, fastestTransactionTime,
    verifyTransaction] only, so the function the handler calls may come
    from an earlier render, with that render's [pixelPackSize],
    [remainingPixels], [isConnected] and [address]: [verifyClosure] holds
    the values it closes over, [closure] those of the handler itself. *)
Record Props := {
  closure : Polling.Closure;
  verifyClosure : Polling.Closure;
  balance : Z;
  packsToBuy : Z;
  pixelPackCost : Z;
  receiverAddress : string;
  formattedTotal : string;
}.

(** The component of the timed loops together with the purchase dialog, and
    the calls made to [sendTransaction] and [purchasePixels], oldest
    first. *)
Record Shop := {
  component : Polling.Component;
  isPaying : bool;
  showPurchaseModal : bool;
  showTransactionMetrics : bool;
  currentTransaction : option string;
  toasts : list Click.Toast;
  sendTransactionCalls : list (string * Z);
  purchasePixelsCalls : list (string * string * Z);
}.

Definition totalCost (p : Props) : Z := packsToBuy p * pixelPackCost p.

Definition with_component (c : Polling.Component) (s : Shop) : Shop :=
  {| component := c; isPaying := isPaying s;
     showPurchaseModal := showPurchaseModal s;
     showTransactionMetrics := showTransactionMetrics s;
     currentTransaction := currentTransaction s; toasts := toasts s;
     sendTransactionCalls := sendTransactionCalls s;
     purchasePixelsCalls := purchasePixelsCalls s |}.

Definition toast (t : Click.Toast) (s : Shop) : Shop :=
  {| component := component s; isPaying := isPaying s;
     showPurchaseModal := showPurchaseModal s;
     showTransactionMetrics := showTransactionMetrics s;
     currentTransaction := currentTransaction s; toasts := toasts s ++ [t];
     sendTransactionCalls := sendTransactionCalls s;
     purchasePixelsCalls := purchasePixelsCalls s |}.

(** [setIsPaying(false); setShowPurchaseModal(false)] and the given value
    for [showTransactionMetrics]. *)
Definition closeDialog (metrics : bool) (s : Shop) : Shop :=
  {| component := component s; isPaying := false;
     showPurchaseModal := false;
     showTransactionMetrics := metrics;
     currentTransaction := currentTransaction s; toasts := toasts s;
     sendTransactionCalls := sendTransactionCalls s;
     purchasePixelsCalls := purchasePixelsCalls s |}.

Definition walletNotConnected : Click.Toast :=
  {| Click.title := "Wallet not connected";
     Click.description := "Please connect your KasWare wallet to buy pixels.";
     Click.destructive := true |}.

Definition insufficientBalance (p : Props) : Click.Toast :=
  {| Click.title := "Insufficient balance";
     Click.description :=
       "You need at least " +:+ formattedTotal p +:+ " KAS to buy "
         +:+ pretty (packsToBuy p) +:+ " pixel pack(s).";
     Click.destructive := true |}.

Definition processingFailed : Click.Toast :=
  {| Click.title := "Transaction sent, but purchase processing failed";
     Click.description :=
       "Your KAS was sent, but there was an error processing your pixel purchase. Please contact support.";
     Click.destructive := true |}.

Definition purchaseSuccessful (pixels : Z) : Click.Toast :=
  {| Click.title := "Purchase successful";
     Click.description :=
       "You've purchased " +:+ pretty pixels +:+ " pixels!";
     Click.destructive := false |}.

Definition purchaseFailed (e : Wallet.Thrown) : Click.Toast :=
  {| Click.title := "Purchase failed";
     Click.description :=
       Wallet.messageOr
         "There was an error processing your payment. Please try again." e;
     Click.destructive := true |}.

(** [a || b] on an optional number: null, undefined and 0 are falsy. *)
Definition orNumber (a : option Z) (b : Z) : Z :=
  match a with
  | Some n => if n =? 0 then b else n
  | None => b
  end.

(** Where the handler stands when it returns or reaches an [await]. *)
Inductive BuyStep :=
| Finished (s : Shop)
| AwaitBalance (s : Shop)
| AwaitSend (s : Shop) (initialPixelBalance : Z)
| AwaitPurchase (s : Shop).

(** From [setIsPaying(true)] to [await sendTransaction(...)]. *)
Definition pay (p : Props) (initialPixelBalance : Z) (s : Shop) : BuyStep :=
  let c := Polling.with_transactionTime None
             (Polling.with_transactionVerified false (component s)) in
  AwaitSend
    {| component := c; isPaying := true;
       showPurchaseModal := showPurchaseModal s;
       showTransactionMetrics := showTransactionMetrics s;
       currentTransaction := None; toasts := toasts s;
       sendTransactionCalls :=
         sendTransactionCalls s ++ [(receiverAddress p, totalCost p)];
       purchasePixelsCalls := purchasePixelsCalls s |}
    initialPixelBalance.

(** [handleBuyPixels] up to its first [await]. *)
Definition handleBuyPixels_begin (p : Props) (s : Shop) : BuyStep :=
  if negb (Polling.isConnected (closure p)) then Finished (toast walletNotConnected s)
  else if balance p <? totalCost p then Finished (toast (insufficientBalance p) s)
  else
    match Polling.walletReady (closure p) with
    | Some _ => AwaitBalance s
    | None => pay p (Polling.closedRemainingPixels (closure p)) s
    end.

(** From the point where [getWalletBalance] settles. *)
Definition handleBuyPixels_afterBalance (p : Props) (r : BalanceResponse)
    (s : Shop) : BuyStep :=
  match fst (getWalletBalance
               (default "" (Polling.walletReady (closure p))) r) with
  | Return currentBalance =>
      pay p currentBalance
        (with_component
           (Polling.with_remainingPixels currentBalance (component s)) s)
  | Throw _ => pay p (Polling.closedRemainingPixels (closure p)) s
  end.

(** The outer [catch]. *)
Definition buyingFailed (e : Wallet.Thrown) (s : Shop) : Shop :=
  toast (purchaseFailed e)
    {| component := component s; isPaying := false;
       showPurchaseModal := false;
       showTransactionMetrics := showTransactionMetrics s;
       currentTransaction := currentTransaction s; toasts := toasts s;
       sendTransactionCalls := sendTransactionCalls s;
       purchasePixelsCalls := purchasePixelsCalls s |}.

(** The branch [if (txId)]: the transaction id is stored, verification
    starts, and [purchasePixels] is called.  The poll runs with the values
    of the memoised [verifyTransactionWithBackend], the request to
    [purchasePixels] with the handler's own [address]. *)
Definition startVerification (p : Props) (initialPixelBalance : Z)
    (txId : string) (now : Z) (s : Shop) : Shop :=
  let c := Polling.verifyTransactionWithBackend txId (packsToBuy p)
             (Some initialPixelBalance) (verifyClosure p) now (component s) in
  let wallet :=
    match Polling.address (closure p) with
    | Some a => if String.eqb a "" then "unknown-wallet" else a
    | None => "unknown-wallet"
    end in
  {| component := c; isPaying := isPaying s;
     showPurchaseModal := showPurchaseModal s;
     showTransactionMetrics := showTransactionMetrics s;
     currentTransaction := Some txId; toasts := toasts s;
     sendTransactionCalls := sendTransactionCalls s;
     purchasePixelsCalls :=
       purchasePixelsCalls s ++ [(wallet, txId, totalCost p)] |}.

(** From the point where [sendTransaction] settles, at time [now]. *)
Definition handleBuyPixels_afterSend (p : Props) (initialPixelBalance : Z)
    (r : Wallet.Sent) (now : Z) (s : Shop) : BuyStep :=
  match r with
  | Wallet.returned (Some txId) =>
      if String.eqb txId "" then
        Finished (buyingFailed (Wallet.anError "Failed to send transaction") s)
      else AwaitPurchase (startVerification p initialPixelBalance txId now s)
  | Wallet.returned None =>
      Finished (buyingFailed (Wallet.anError "Failed to send transaction") s)
  | Wallet.threw e => Finished (buyingFailed e s)
  end.

(** The transaction was not sent: [sendTransaction] threw, or returned no
    transaction id. *)
Definition notSent (r : Wallet.Sent) : bool :=
  match r with
  | Wallet.returned (Some txId) => String.eqb txId ""
  | Wallet.returned None | Wallet.threw _ => true
  end.

(** From the point where [purchasePixels] settles. *)
Definition handleBuyPixels_afterPurchase (p : Props)
    (r : Completion Fetch.PurchaseData) (s : Shop) : Shop :=
  match r with
  | Return purchaseResult =>
      if String.eqb (Fetch.purchaseStatus purchaseResult) "pending"
      then closeDialog true s
      else
        let bought := packsToBuy p * Polling.pixelPackSize (closure p) in
        let newBalance :=
          orNumber (Fetch.new_balance purchaseResult)
            (Polling.closedRemainingPixels (closure p) + bought) in
        toast (purchaseSuccessful (orNumber (Fetch.pixels_added purchaseResult) bought))
          (closeDialog true
             (with_component
                (Polling.with_remainingPixels newBalance (component s)) s))
  | Throw _ => closeDialog true (toast processingFailed s)
  end.

(** The whole handler, when nothing else runs between its requests and
    their answers. *)
Definition handleBuyPixels (p : Props) (balanceRead : BalanceResponse)
    (sent : Wallet.Sent) (now : Z) (purchased : Completion Fetch.PurchaseData)
    (s : Shop) : Shop :=
  let afterPay step :=
    match step with
    | AwaitSend s1 initialPixelBalance =>
        match handleBuyPixels_afterSend p initialPixelBalance sent now s1 with
        | AwaitPurchase s2 => handleBuyPixels_afterPurchase p purchased s2
        | Finished s2 | AwaitBalance s2 | AwaitSend s2 _ => s2
        end
    | Finished s1 | AwaitBalance s1 | AwaitPurchase s1 => s1
    end in
  match handleBuyPixels_begin p s with
  | AwaitBalance s1 => afterPay (handleBuyPixels_afterBalance p balanceRead s1)
  | step => afterPay step
  end.

End Purchase.

(** ** Timers and their refs *)

Module Tracking.
Import Polling.

(** [cb] is a callback of the verification machinery. *)
Definition isVerificationTimer (cb : TimerCallback) : bool :=
  match cb with
  | elapsedTick | verificationTick _ _ _ _ => true
  | balanceTick _ | balanceSafetyTimeout => false
  end.

Definition isVerificationPoll (cb : TimerCallback) : bool :=
  match cb with
  | verificationTick _ _ _ _ => true
  | _ => false
  end.

(** Every live verification poll is the one [verificationIntervalRef] holds
    and every live elapsed ticker the one [timerIntervalRef] holds. *)
Definition verificationTimersTracked (s : Component) : Prop :=
  forall id cb, timers s !! id = Some cb ->
    match cb with
    | verificationTick _ _ _ _ => verificationIntervalRef s = Some id
    | elapsedTick => timerIntervalRef s = Some id
    | balanceTick _ | balanceSafetyTimeout => True
    end.

(** [s'] has the two refs of [s] and no verification timer that [s] lacks. *)
Definition addsNoVerificationTimer (s s' : Component) : Prop :=
  verificationIntervalRef s' = verificationIntervalRef s
  /\ timerIntervalRef s' = timerIntervalRef s
  /\ forall id cb, isVerificationTimer cb = true ->
       timers s' !! id = Some cb -> timers s !! id = Some cb.
End Tracking.

Module HookTracking.
Import WebSocketHook.

(** Every live heartbeat interval is the one [pingIntervalRef] holds and
    every live reconnect timer the one [reconnectTimeoutRef] holds. *)
Definition hookTimersTracked (h : Hook) : Prop :=
  forall id cb, timers h !! id = Some cb ->
    match cb with
    | pingTick _ => pingIntervalRef h = Some id
    | reconnectTimeout => reconnectTimeoutRef h = Some id
    end.

(** [h'] has the refs and the timers of [h]. *)
Definition sameTimers (h h' : Hook) : Prop :=
  timers h' = timers h /\ pingIntervalRef h' = pingIntervalRef h
  /\ reconnectTimeoutRef h' = reconnectTimeoutRef h.

End HookTracking.

(** ** More concrete runs *)

Module MoreScenarios.

Definition onePurchase : list Polling.Event :=
  [ Polling.buy "txA" 1 (Some 5) Scenarios.wallet Scenarios.t0 ].

(** A purchase whose polls come back verified three times over. *)
Definition threeVerifiedPolls : list Polling.Event :=
  [ Polling.timerFires 2 (Scenarios.t0 + 1000);
    Polling.timerFires 2 (Scenarios.t0 + 2000);
    Polling.timerFires 2 (Scenarios.t0 + 3000);
    Polling.verifySettles 3 (Api.verifyBody true) (Scenarios.t0 + 3100);
    Polling.verifySettles 4 (Api.verifyBody true) (Scenarios.t0 + 3200);
    Polling.verifySettles 5 (Api.verifyBody true) (Scenarios.t0 + 3300) ].

Definition openHook : WebSocketHook.Hook :=
  WebSocketHook.run (WebSocketHook.rendered true 0)
    [WebSocketHook.mount; WebSocketHook.opened 1].

(** The render in which the configuration arrived, before the wallet was
    connected: [verifyTransactionWithBackend] was memoised there and, its
    dependencies unchanged since, is still the function of that render. *)
Definition staleWallet : Polling.Closure :=
  {| Polling.pixelPackSize := 10; Polling.closedRemainingPixels := 0;
     Polling.isConnected := false; Polling.address := None;
     Polling.transaction_check_interval := Some 1000 |}.

(** A purchase of two packs by the connected wallet. *)
Definition shopProps : Purchase.Props :=
  {| Purchase.closure := Scenarios.wallet;
     Purchase.verifyClosure := staleWallet;
     Purchase.balance := 1000000000;
     Purchase.packsToBuy := 2;
     Purchase.pixelPackCost := 200000000;
     Purchase.receiverAddress := "kaspa:qreceiver";
     Purchase.formattedTotal := "4 KAS" |}.

Definition poorProps : Purchase.Props :=
  {| Purchase.closure := Scenarios.wallet;
     Purchase.verifyClosure := Scenarios.wallet;
     Purchase.balance := 100;
     Purchase.packsToBuy := 2;
     Purchase.pixelPackCost := 200000000;
     Purchase.receiverAddress := "kaspa:qreceiver";
     Purchase.formattedTotal := "4 KAS" |}.

Definition shop : Purchase.Shop :=
  {| Purchase.component := Polling.mounted 5;
     Purchase.isPaying := false;
     Purchase.showPurchaseModal := true;
     Purchase.showTransactionMetrics := false;
     Purchase.currentTransaction := None;
     Purchase.toasts := [];
     Purchase.sendTransactionCalls := [];
     Purchase.purchasePixelsCalls := [] |}.

End MoreScenarios.

(** * Properties *)

Section KeyProperties.

Lemma commaFree_pretty_N_go (x : N) (s : string) :
  commaFree s = true -> commaFree (pretty_N_go x s) = true.
Proof.
  revert s. induction (N.lt_wf_0 x) as [x _ IH]; intros s Hs.
  destruct (decide (x = 0%N)) as [->|Hx].
  - rewrite pretty_N_go_0. exact Hs.
  - rewrite pretty_N_go_step by lia. apply IH.
    + apply N.div_lt; lia.
    + simpl. rewrite Hs, andb_true_r.
      unfold pretty_N_char. repeat case_match; reflexivity.
Qed.

Lemma commaFree_pretty_Z (x : Z) : commaFree (pretty x) = true.
Proof.
  assert (HN : forall n : N, commaFree (pretty n) = true).
  { intros n. unfold pretty, pretty_N. case_decide; [reflexivity|].
    apply commaFree_pretty_N_go. reflexivity. }
  destruct x as [|p|p]; [reflexivity|apply (HN (Npos p))|].
  unfold pretty, pretty_Z. simpl. apply (HN (Npos p)).
Qed.

Lemma comma_split (a a' b b' : string) :
  commaFree a = true -> commaFree a' = true ->
  a +:+ "," +:+ b = a' +:+ "," +:+ b' -> a = a' /\ b = b'.
Proof.
  revert a'. induction a as [|c a IH]; intros [|c' a'] Ha Ha' Heq;
    simpl in *; simplify_eq/=.
  - auto.
  - destruct (IH a') as [-> ->]; auto;
      repeat match goal with H : _ && _ = true |- _ =>
        apply andb_true_iff in H as [_ H] end; assumption.
Qed.

(** X13: two cells have the same key only if they are the same cell. *)
Lemma pixelKey_inj (x y x' y' : Z) :
  pixelKey x y = pixelKey x' y' -> x = x' /\ y = y'.
Proof.
  unfold pixelKey. intros Heq.
  apply comma_split in Heq as [Hx Hy]; try apply commaFree_pretty_Z.
  split; apply (inj pretty); assumption.
Qed.

End KeyProperties.

Section MergeProperties.
Import WebSocketHook Merge Scenarios.

Lemma mergeEffect_lookup (cs prev : gmap string string) (k : string) :
  mergeEffect cs prev !! k = from_option Some (prev !! k) (cs !! k).
Proof.
  unfold mergeEffect. case_bool_decide as Hsz.
  - rewrite lookup_union. destruct (cs !! k), (prev !! k); reflexivity.
  - assert (cs = ∅) as -> by (apply map_size_empty_iff; lia).
    rewrite lookup_empty. reflexivity.
Qed.

Lemma mergeEffect_idemp (cs prev : gmap string string) :
  mergeEffect cs (mergeEffect cs prev) = mergeEffect cs prev.
Proof.
  apply map_eq; intros k. rewrite !mergeEffect_lookup.
  destruct (cs !! k); reflexivity.
Qed.

Lemma deliver_snoc (ms : list WebSocketMessage) (m : WebSocketMessage)
    (v : ClientView) :
  deliver (ms ++ [m]) v = receive m (deliver ms v).
Proof. unfold deliver. rewrite foldl_app. reflexivity. Qed.

Lemma lastDelivered_snoc (k : string) (ws : list AcceptedWrite) (w : AcceptedWrite) :
  lastDelivered k (ws ++ [w]) =
    if decide (writeKey w = k) then Some w else lastDelivered k ws.
Proof.
  unfold lastDelivered. rewrite filter_app.
  destruct (decide (writeKey w = k)) as [Hk|Hk].
  - rewrite (filter_cons_True _ w [] Hk), filter_nil. apply last_snoc.
  - rewrite (filter_cons_False _ w [] Hk), filter_nil, app_nil_r. reflexivity.
Qed.

(** After the deltas of [ws], both copies of the grid show, at a cell some
    delta wrote, the colour of the delta delivered last for it. *)
Lemma deliver_deltas_lookup (ws : list AcceptedWrite) (v : ClientView) (k : string)
    (w : AcceptedWrite) :
  lastDelivered k ws = Some w ->
  canvasState (deliver (delta <$> ws) v) !! k = Some (wcolor w) /\
  localCanvasState (deliver (delta <$> ws) v) !! k = Some (wcolor w).
Proof.
  revert w. induction ws as [|w' ws IH] using rev_ind; intros w Hlast.
  - discriminate Hlast.
  - rewrite fmap_app. change (delta <$> [w']) with [delta w'].
    rewrite deliver_snoc. rewrite lastDelivered_snoc in Hlast.
    unfold receive; simpl. rewrite mergeEffect_lookup.
    fold (writeKey w').
    destruct (decide (writeKey w' = k)) as [Hk|Hk].
    + injection Hlast as <-. rewrite Hk, !lookup_insert_eq. auto.
    + destruct (IH w Hlast) as [Hcs Hloc].
      rewrite (lookup_insert_ne _ _ _ _ Hk), Hcs. auto.
Qed.

Lemma renderBatch_one (m : WebSocketMessage) (v : ClientView) :
  renderBatch [m] v = receive m v.
Proof.
  unfold renderBatch, receive. cbn [foldl existsb]. rewrite orb_false_r.
  reflexivity.
Qed.

(** Frames that are not snapshots give the same two copies of the grid
    whether each is rendered on its own or all are taken by one render. *)
Lemma renderBatch_without_snapshot (frames : list WebSocketMessage)
    (v : ClientView) :
  Forall (fun m => forall data, m <> canvas_state data) frames ->
  renderBatch frames v = deliver frames v.
Proof.
  induction frames as [|m frames IH] using rev_ind; intros Hno.
  - destruct v; reflexivity.
  - apply Forall_app in Hno as [Hno Hm]. apply Forall_inv in Hm.
    rewrite deliver_snoc, <- (IH Hno). unfold renderBatch, receive.
    cbn [canvasState localCanvasState]. rewrite foldl_app, existsb_app.
    cbn [foldl existsb]. rewrite orb_false_r. f_equal.
    destruct m as [data|x y color| | | |]; cbn [updatesCanvasState onmessage];
      rewrite ?orb_false_r, ?orb_true_r; try reflexivity.
    + exfalso. apply (Hm data). reflexivity.
    + destruct (existsb updatesCanvasState frames); [|reflexivity].
      apply map_eq; intros k. rewrite !mergeEffect_lookup.
      destruct (decide (pixelKey x y = k)) as [->|Hk].
      * rewrite lookup_insert_eq. reflexivity.
      * rewrite (lookup_insert_ne _ _ _ _ Hk).
        destruct (foldl _ _ frames !! k); reflexivity.
Qed.

(** So a session without snapshots ends in the same two copies of the grid
    however its frames are grouped into renders: what is proved of deltas
    delivered one by one holds of deltas batched in any way. *)
Lemma renderBatches_without_snapshot (batches : list (list WebSocketMessage))
    (v : ClientView) :
  Forall (Forall (fun m => forall data, m <> canvas_state data)) batches ->
  renderBatches batches v = deliver (concat batches) v.
Proof.
  revert v. induction batches as [|frames batches IH]; intros v Hno.
  - reflexivity.
  - apply Forall_cons in Hno as [Hframes Hno].
    unfold renderBatches, deliver in *. cbn [foldl concat].
    rewrite foldl_app, (IH _ Hno).
    rewrite (renderBatch_without_snapshot frames v Hframes). reflexivity.
Qed.

(** C4, as amended: a snapshot replaces the hook's [canvasState] wholesale,
    so that the frames handled before it in the same render, an earlier
    snapshot among them, leave no trace; at that render the hook's
    [canvasState] is the snapshot with the later frames of the render
    applied, and the component merges it into the local view: a cell of
    [canvasState] takes its colour, and every local cell that [canvasState]
    lacks keeps its local colour, whether or not it was a local write. *)
Theorem snapshot_merged_over_local_view (earlier later : list WebSocketMessage)
    (data : gmap string string) (v : ClientView) (k : string) :
  let after := renderBatch (earlier ++ canvas_state data :: later) v in
  after = renderBatch (canvas_state data :: later) v /\
  canvasState after = foldl (fun acc m => onmessage m acc) data later /\
  localCanvasState after !! k =
    from_option Some (localCanvasState v !! k) (canvasState after !! k).
Proof.
  unfold renderBatch. cbn [canvasState localCanvasState].
  rewrite foldl_app, existsb_app.
  cbn [foldl existsb onmessage updatesCanvasState].
  rewrite orb_true_r. cbn [orb].
  split; [reflexivity|]. split; [reflexivity|]. apply mergeEffect_lookup.
Qed.

(** A snapshot followed by another in the same render is never merged:
    its cell is missing from the local view, where two renders would have
    left it. *)
Lemma superseded_snapshot_is_never_merged :
  let first := canvas_state {[ "0,0" := "#FF0000" ]} in
  let second := canvas_state {[ "10,10" := "#0000FF" ]} in
  localCanvasState (renderBatch [first; second] emptyView) !! "0,0" = None
  /\ localCanvasState (renderBatch [first; second] emptyView) !! "10,10"
     = Some "#0000FF"
  /\ localCanvasState (deliver [first; second] emptyView) !! "0,0"
     = Some "#FF0000".
Proof. vm_compute. repeat split. Qed.

(** C4, as stated, fails both ways: with no unacknowledged write at all,
    a cell held locally and absent from the snapshot is still there after
    the snapshot was received; and a cell painted locally and not yet
    acknowledged takes the snapshot's colour instead of being reapplied. *)
Lemma snapshot_keeps_absent_cell :
  ~ snapshotReplaces ∅ snapshotOnReconnect fetchedView
      (receive (canvas_state snapshotOnReconnect) fetchedView)
  /\ ~ snapshotReplaces {[ "0,0" ]} staleSnapshot paintedView
        (receive (canvas_state staleSnapshot) paintedView).
Proof.
  split; intros Hspec; specialize (Hspec "0,0"); vm_compute in Hspec;
    discriminate Hspec.
Qed.

(** C5, as amended: after any sequence of deltas was merged, a cell that
    some delta wrote shows the colour of the delta that was delivered last
    for it, whatever the order of acceptance. *)
Theorem last_delivered_delta_wins (ws : list AcceptedWrite) (v : ClientView)
    (k : string) (w : AcceptedWrite) :
  lastDelivered k ws = Some w ->
  localCanvasState (deliver (delta <$> ws) v) !! k = Some (wcolor w).
Proof. intros Hlast. apply (deliver_deltas_lookup ws v k w Hlast). Qed.

Lemma last_delivered_delta_wins_witness :
  lastDelivered "0,0" [blueLast; redFirst] = Some redFirst /\
  localCanvasState (deliver (delta <$> [blueLast; redFirst]) emptyView)
    !! "0,0" = Some "#FF0000".
Proof.
  split; [reflexivity|].
  apply (last_delivered_delta_wins [blueLast; redFirst] emptyView "0,0" redFirst).
  reflexivity.
Defined.

(** In a list in acceptance order the last write is the one accepted
    last. *)
Lemma lastAccepted_in_order (w : AcceptedWrite) (rest : list AcceptedWrite) :
  acceptedInOrder (w :: rest) = true ->
  exists w', lastAccepted (w :: rest) = Some w'
             /\ last (w :: rest) = Some w'
             /\ (acceptedAt w <= acceptedAt w')%nat.
Proof.
  revert w. induction rest as [|w1 rest IH]; intros w Hord.
  - exists w. simpl. auto.
  - cbn [acceptedInOrder] in Hord. apply andb_true_iff in Hord as [Hlt Hord].
    apply Nat.ltb_lt in Hlt.
    destruct (IH w1 Hord) as (w' & Hacc & Hlast & Hle).
    exists w'. change (lastAccepted (w :: w1 :: rest)) with
      (match lastAccepted (w1 :: rest) with
       | Some w2 => if (acceptedAt w <? acceptedAt w2)%nat then Some w2 else Some w
       | None => Some w
       end).
    rewrite Hacc. assert (Hlt' : (acceptedAt w <? acceptedAt w')%nat = true)
      by (apply Nat.ltb_lt; lia).
    rewrite Hlt'. repeat split; [exact Hlast|lia].
Qed.

(** X14: delivered in acceptance order, the deltas for one cell do leave the
    colour of the chronologically last accepted write. *)
Lemma in_order_delivery_last_accepted_wins (ws : list AcceptedWrite)
    (v : ClientView) (k : string) :
  ws <> [] -> Forall (fun w => writeKey w = k) ws ->
  acceptedInOrder ws = true ->
  chronologicalLastWins ws v k.
Proof.
  intros Hne Hkey Hord. destruct ws as [|w rest]; [congruence|].
  destruct (lastAccepted_in_order w rest Hord) as (w' & Hacc & Hlast & _).
  unfold chronologicalLastWins. rewrite Hacc. simpl.
  apply (deliver_deltas_lookup (w :: rest) v k w').
  unfold lastDelivered.
  assert (Hfilter : filter (fun w0 => writeKey w0 = k) (w :: rest) = w :: rest).
  { clear -Hkey. induction Hkey as [|w0 l Hk _ IH]; [reflexivity|].
    rewrite filter_cons_True by exact Hk. f_equal. exact IH. }
  rewrite Hfilter. exact Hlast.
Qed.

(** C5, as stated, fails: two deltas for cell (0,0) delivered in the
    reverse of their acceptance order leave the colour of the write that
    was accepted first. *)
Lemma out_of_order_delivery_keeps_older_write :
  ~ chronologicalLastWins [blueLast; redFirst] emptyView "0,0".
Proof. unfold chronologicalLastWins. vm_compute. discriminate. Qed.

(** C6: merging a delta is idempotent; delivering the same [pixel_update]
    frame twice leaves the client in the state it is in after the first
    delivery. *)
Theorem delta_merge_idempotent (v : ClientView) (x y : Z) (color : string) :
  receive (pixel_update x y color) (receive (pixel_update x y color) v) =
  receive (pixel_update x y color) v.
Proof.
  unfold receive; simpl. rewrite insert_insert_eq, mergeEffect_idemp.
  reflexivity.
Qed.

End MergeProperties.

Section ClickProperties.
Import Click Scenarios.

Lemma lastPixelNotice_fields (closedRemaining : Z) (v : View) :
  localCanvasState (lastPixelNotice closedRemaining v) = localCanvasState v /\
  remainingPixels (lastPixelNotice closedRemaining v) = remainingPixels v /\
  showPurchaseModal (lastPixelNotice closedRemaining v) = showPurchaseModal v /\
  placePixelCalls (lastPixelNotice closedRemaining v) = placePixelCalls v /\
  (forall t, t ∈ toasts v -> t ∈ toasts (lastPixelNotice closedRemaining v)).
Proof.
  unfold lastPixelNotice. destruct (closedRemaining =? 1); simpl.
  - repeat split; try reflexivity. intros t Ht. apply elem_of_app. auto.
  - repeat split; auto.
Qed.

(** Every way [handlePixelClick_begin] reaches its [await]: the optimistic
    write is the only change to the grid. *)
Lemma handlePixelClick_begin_awaiting (p : Props) (e : ClickEvent)
    (v v1 : View) (args : PlacePixelArgs) :
  handlePixelClick_begin p e v = Awaiting v1 args ->
  localCanvasState v1 = <[clickedKey e := selectedColor p]> (localCanvasState v)
  /\ toasts v1 = toasts v
  /\ placePixelCalls v1 = placePixelCalls v ++ [args]
  /\ isMobile p = false /\ isConnected p = true /\ 0 < remainingPixels v
  /\ backendStatus p = online.
Proof.
  unfold handlePixelClick_begin, clickedKey.
  destruct (isMobile p); [discriminate|].
  destruct (isConnected p); simpl; [|discriminate].
  destruct (Z.leb_spec (remainingPixels v) 0); [discriminate|].
  destruct (canvasMounted p); simpl; [|discriminate].
  match goal with |- context [if ?c then Finished v else _] => destruct c end;
    [discriminate|].
  destruct (backendStatus p); try discriminate.
  intros [= <- <-]. simpl. repeat split; auto.
Qed.

(** C3, as amended: the click paints the cell before the request is sent,
    and when the request comes back with an insufficient-balance error the
    handler rolls nothing back: it leaves the local canvas exactly as it
    finds it at that moment, whatever happened while the request was out,
    sets the local balance to 0, opens the purchase modal and raises the
    out-of-pixels notice. *)
Theorem denied_write_leaves_canvas_as_found (p : Props) (e : ClickEvent)
    (v v1 : View) (args : PlacePixelArgs) (message : string)
    (atAnswer : View) :
  handlePixelClick_begin p e v = Awaiting v1 args ->
  includes "Insufficient pixel balance" message = true ->
  localCanvasState v1 = <[clickedKey e := selectedColor p]> (localCanvasState v)
  /\ let after :=
       handlePixelClick_resume (remainingPixels v) (thrown message) atAnswer in
     localCanvasState after = localCanvasState atAnswer
     /\ placePixelCalls after = placePixelCalls atAnswer
     /\ remainingPixels after = 0
     /\ showPurchaseModal after = true
     /\ outOfPixels true ∈ toasts after.
Proof.
  intros Hbegin Hmsg.
  destruct (handlePixelClick_begin_awaiting p e v v1 args Hbegin)
    as (Hloc & _).
  split; [exact Hloc|]. cbv zeta.
  unfold handlePixelClick_resume. rewrite Hmsg.
  match goal with |- context [lastPixelNotice ?c ?w] =>
    destruct (lastPixelNotice_fields c w) as (-> & -> & -> & -> & Htoast)
  end.
  simpl. repeat split; try reflexivity.
  apply Htoast. simpl. apply elem_of_app. right. apply list_elem_of_singleton.
  reflexivity.
Qed.

Lemma denied_write_leaves_canvas_as_found_witness :
  let after := handlePixelClick_resume 1 insufficient repaintedView in
  localCanvasState after = localCanvasState repaintedView
  /\ placePixelCalls after = placePixelCalls repaintedView
  /\ remainingPixels after = 0
  /\ showPurchaseModal after = true
  /\ outOfPixels true ∈ toasts after.
Proof.
  assert (Hb : exists v1 args,
             handlePixelClick_begin desktopProps clickAtOrigin whiteCellView
             = Awaiting v1 args) by (eexists _, _; reflexivity).
  destruct Hb as (v1 & args & Hb).
  exact (proj2 (denied_write_leaves_canvas_as_found desktopProps clickAtOrigin
                  whiteCellView v1 args
                  "Failed to place pixel: 400 - Insufficient pixel balance"
                  repaintedView Hb eq_refl)).
Defined.

(** C3, as stated, fails: after the denied write the clicked cell shows
    the colour of the click, not the white it held before. *)
Lemma denied_write_is_not_rolled_back :
  ~ rolledBackAndReported clickAtOrigin whiteCellView
      (handlePixelClick desktopProps clickAtOrigin insufficient whiteCellView).
Proof. intros [Hcell _]. vm_compute in Hcell. discriminate Hcell. Qed.

(** C10, as amended: with no pixels left or no wallet connected, a click
    writes no cell and sends no request; a mobile client is shown the
    mobile notice only, any other client the connect-wallet notice when the
    wallet is not connected and the purchase modal otherwise. *)
Theorem blocked_click_changes_no_cell (p : Props) (e : ClickEvent) (v : View) :
  remainingPixels v <= 0 \/ isConnected p = false ->
  exists after : View,
    handlePixelClick_begin p e v = Finished after
    /\ localCanvasState after = localCanvasState v
    /\ placePixelCalls after = placePixelCalls v
    /\ after =
         if isMobile p then setShowMobileMessage true v
         else if isConnected p then setShowPurchaseModal true v
         else toast walletNotConnected v.
Proof.
  intros Hblocked. unfold handlePixelClick_begin.
  destruct (isMobile p); [eexists; repeat split; reflexivity|].
  destruct (isConnected p); simpl; [|eexists; repeat split; reflexivity].
  destruct Hblocked as [Hle|Hcon]; [|discriminate Hcon].
  apply Z.leb_le in Hle. rewrite Hle. eexists; repeat split; reflexivity.
Qed.

Lemma blocked_click_changes_no_cell_witness :
  exists after : View,
    handlePixelClick_begin desktopProps clickAtOrigin brokeView = Finished after
    /\ localCanvasState after = localCanvasState brokeView
    /\ placePixelCalls after = placePixelCalls brokeView
    /\ after = setShowPurchaseModal true brokeView.
Proof.
  apply (blocked_click_changes_no_cell desktopProps clickAtOrigin brokeView).
  left. vm_compute. discriminate.
Defined.

(** C10, as stated, fails on a mobile client: with the wallet not
    connected and no pixels left, the click shows neither the purchase
    modal nor the connect-wallet notice. *)
Lemma mobile_click_shows_no_prompt :
  (remainingPixels brokeView <= 0 /\ isConnected mobileProps = false) /\
  ~ promptShown (handlePixelClick mobileProps clickAtOrigin (placed None) brokeView).
Proof.
  split; [split; [vm_compute; discriminate|reflexivity]|].
  intros [Hmodal|Htoast].
  - vm_compute in Hmodal. discriminate Hmodal.
  - vm_compute in Htoast. apply elem_of_nil in Htoast. exact Htoast.
Qed.

End ClickProperties.

Section ApiProperties.
Import Api.

(** C9: when the balance query fails, [getWalletBalance] does not throw:
    it returns 0, the very value it returns for a wallet whose balance is
    0, so the returned value does not tell a failed read from an empty
    wallet. *)
Theorem getWalletBalance_failure_returns_zero (wallet_address : string)
    (r : BalanceResponse) :
  queryFailed r = true ->
  fst (getWalletBalance wallet_address r) = Return 0 /\
  fst (getWalletBalance wallet_address r) =
    fst (getWalletBalance wallet_address (balanceBody 0)).
Proof. destruct r; simpl; intros Hfail; try discriminate Hfail; auto. Qed.

Lemma getWalletBalance_failure_returns_zero_witness :
  queryFailed (httpError 500) = true /\
  fst (getWalletBalance "kaspa:qz0example" (httpError 500)) = Return 0 /\
  fst (getWalletBalance "kaspa:qz0example" (httpError 500)) =
    fst (getWalletBalance "kaspa:qz0example" (balanceBody 0)).
Proof.
  split; [reflexivity|].
  apply (getWalletBalance_failure_returns_zero "kaspa:qz0example" (httpError 500)).
  reflexivity.
Defined.

(** [getWalletBalance] never throws. *)
Lemma getWalletBalance_returns (wallet_address : string) (r : BalanceResponse) :
  exists b : Z, fst (getWalletBalance wallet_address r) = Return b.
Proof. destruct r; simpl; eauto. Qed.

End ApiProperties.

Section HookProperties.
Import WebSocketHook Scenarios.

(** X8: the clean-up clears the timers the two refs point to. *)
Lemma cleanup_clears_tracked_timers (h : Hook) (id : nat) :
  pingIntervalRef h = Some id \/ reconnectTimeoutRef h = Some id ->
  timers (cleanup h) !! id = None.
Proof.
  unfold cleanup.
  assert (Hclose : forall socket, pingIntervalRef (close socket h) = pingIntervalRef h
                     /\ reconnectTimeoutRef (close socket h) = reconnectTimeoutRef h
                     /\ timers (close socket h) = timers h).
  { intros socket. unfold close.
    destruct (sockets h !! socket) as [[]|]; simpl; auto. }
  set (h1 := match socketRef h with Some socket => close socket h | None => h end).
  assert (H1 : pingIntervalRef h1 = pingIntervalRef h
               /\ reconnectTimeoutRef h1 = reconnectTimeoutRef h
               /\ timers h1 = timers h).
  { unfold h1. destruct (socketRef h); auto. }
  destruct H1 as (Hp & Hr & Ht). rewrite Hp, Hr.
  intros [Hid|Hid]; rewrite Hid; unfold clearIfSet; simpl;
    destruct (reconnectTimeoutRef h), (pingIntervalRef h); simpl;
    try discriminate; try injection Hid as ->;
    rewrite ?lookup_delete_eq; try reflexivity;
    rewrite lookup_delete; case_decide; rewrite ?lookup_delete_eq; reflexivity.
Qed.

(** C8 fails on the code: the clean-up closes the socket without detaching
    [onclose], so the [close] event that follows the unmount arms a new
    reconnect timer; when it fires a new socket is opened, and its [open]
    event starts a new heartbeat interval.  Both loops run after
    teardown. *)
Theorem teardown_rearms_reconnect_loop :
  let unmounted := run (rendered true 0) (take 3 connectedThenUnmounted) in
  let afterClose := run (rendered true 0) connectedThenUnmounted in
  let reconnected := run afterClose [timerFires 3 3000; opened 4] in
  timers unmounted = ∅
  /\ timers afterClose = {[ 3%nat := reconnectTimeout ]}
  /\ timers reconnected = {[ 5%nat := pingTick 4 ]}
  /\ sockets reconnected !! 4%nat = Some OPEN
  /\ pingsSent (run reconnected [timerFires 5 18000]) = [4%nat].
Proof. vm_compute. repeat split; reflexivity. Qed.

End HookProperties.

Section PollingProperties.
Import Api Polling Scenarios.

(** ** What leaves the verification flag and the log alone *)

Lemma sameVerdict_refl (s : Component) : sameVerdict s s.
Proof. split; reflexivity. Qed.

Lemma sameVerdict_trans (s1 s2 s3 : Component) :
  sameVerdict s1 s2 -> sameVerdict s2 s3 -> sameVerdict s1 s3.
Proof. intros [H1 H2] [H3 H4]. split; congruence. Qed.

Lemma clearIfSet_verdict (ref : option nat) (s : Component) :
  sameVerdict s (clearIfSet ref s).
Proof. destruct ref; split; reflexivity. Qed.

Lemma stopWalletBalanceInterval_verdict (s : Component) :
  sameVerdict s (stopWalletBalanceInterval s).
Proof.
  unfold stopWalletBalanceInterval.
  destruct (clearIfSet_verdict (walletBalanceIntervalRef s) s). split; assumption.
Qed.

Lemma stopVerificationInterval_verdict (s : Component) :
  sameVerdict s (stopVerificationInterval s).
Proof.
  unfold stopVerificationInterval.
  destruct (clearIfSet_verdict (verificationIntervalRef s) s). split; assumption.
Qed.

Lemma stopTimerInterval_verdict (s : Component) :
  sameVerdict s (stopTimerInterval s).
Proof.
  unfold stopTimerInterval.
  destruct (clearIfSet_verdict (timerIntervalRef s) s). split; assumption.
Qed.

Lemma checkBalance_verdict (loop : nat) (s : Component) :
  sameVerdict s (checkBalance loop s).
Proof.
  unfold checkBalance. destruct (loops s !! loop) as [L|]; [|apply sameVerdict_refl].
  destruct (walletReady (closure L)); split; reflexivity.
Qed.

Lemma checkPollingTime_verdict (loop : nat) (L : BalanceLoop) (now : Z)
    (s : Component) :
  sameVerdict s (checkPollingTime loop L now s).
Proof.
  unfold checkPollingTime. case_match.
  - eapply sameVerdict_trans; [|apply stopWalletBalanceInterval_verdict].
    split; reflexivity.
  - split; reflexivity.
Qed.

Lemma checkBalance_resume_verdict (loop : nat) (r : BalanceResponse) (now : Z)
    (s : Component) :
  sameVerdict s (checkBalance_resume loop r now s).
Proof.
  unfold checkBalance_resume.
  destruct (loops s !! loop) as [L|]; [|apply sameVerdict_refl].
  destruct (fst (getWalletBalance _ r)) as [b|]; [|apply sameVerdict_refl].
  repeat case_match;
    (eapply sameVerdict_trans;
     [|first [apply stopWalletBalanceInterval_verdict
             |apply checkPollingTime_verdict]]); split; reflexivity.
Qed.

Lemma startPolling_verdict (initial pixelsPurchased : Z) (c : Closure)
    (actual now : Z) (s : Component) :
  sameVerdict s (startPolling initial pixelsPurchased c actual now s).
Proof.
  unfold startPolling. case_match; [split; reflexivity|].
  match goal with |- context [checkBalance ?l ?s0] =>
    destruct (checkBalance_verdict l s0) as [Hlog Hflag];
    generalize dependent (checkBalance l s0)
  end.
  intros s1 Hlog Hflag. simpl in *. split; assumption.
Qed.

Lemma startWalletBalancePolling_verdict (pixelsPurchased : Z)
    (provided : option Z) (c : Closure) (now : Z) (s : Component) :
  sameVerdict s (startWalletBalancePolling pixelsPurchased provided c now s).
Proof.
  unfold startWalletBalancePolling.
  destruct (walletReady c).
  - destruct (stopWalletBalanceInterval_verdict s). split; assumption.
  - eapply sameVerdict_trans; [apply stopWalletBalanceInterval_verdict|].
    apply startPolling_verdict.
Qed.

(** ** One verification session *)

(** The confirmation block raises the flag and logs one confirmation. *)
Lemma confirmationBlock_verdict (txId : string) (packs : Z) (ib : option Z)
    (c : Closure) (now : Z) (s : Component) :
  isVerifiedRef (confirmationBlock txId packs ib c now s) = true /\
  exists t p i,
    log (confirmationBlock txId packs ib c now s) =
      log s ++ [confirmationProcessed txId t; walletBalancePollingStarted p i].
Proof.
  unfold confirmationBlock.
  match goal with |- context [startWalletBalancePolling ?a ?b ?c ?d ?s0] =>
    destruct (startWalletBalancePolling_verdict a b c d s0) as [Hlog Hf];
    rewrite Hlog, Hf
  end.
  cbn [log isVerifiedRef with_log with_transactionTime].
  destruct (stopTimerInterval_verdict
              (stopVerificationInterval
                 (with_transactionVerified true (with_isVerifiedRef true s))))
    as [Hl1 Hf1].
  destruct (stopVerificationInterval_verdict
              (with_transactionVerified true (with_isVerifiedRef true s)))
    as [Hl2 Hf2].
  rewrite Hf1, Hf2, Hl1, Hl2.
  cbn [log isVerifiedRef with_transactionVerified with_isVerifiedRef].
  split; [reflexivity|]. rewrite <- app_assoc. simpl. eauto.
Qed.

(** An event other than a purchase either leaves flag and log alone, or
    finds the flag down, raises it and logs one confirmation. *)
Lemma step_verdict (s : Component) (e : Event) :
  isBuy e = false ->
  sameVerdict s (step s e) \/
  (isVerifiedRef s = false /\ isVerifiedRef (step s e) = true /\
   exists txId t p i,
     log (step s e) =
       log s ++ [confirmationProcessed txId t; walletBalancePollingStarted p i]).
Proof.
  destruct e as [txId packs ib c now|id now|id r now|id r now|]; simpl;
    intros Hbuy; try discriminate Hbuy.
  - (* timer *)
    left. destruct (timers s !! id) as [[|txId packs ib c|loop|]|];
      try apply sameVerdict_refl.
    + unfold elapsedTick_run. repeat case_match; split; reflexivity.
    + unfold verificationTick_run. case_match.
      * apply stopVerificationInterval_verdict.
      * split; reflexivity.
    + apply checkBalance_verdict.
    + unfold balanceSafetyTimeout_run.
      eapply sameVerdict_trans; [|apply stopWalletBalanceInterval_verdict].
      split; reflexivity.
  - (* verification settles *)
    destruct (pending s !! id) as [[txId packs ib c| |]|];
      try (left; apply sameVerdict_refl).
    unfold verificationTick_resume.
    destruct (fst (verifyTransaction txId r)) as [verified|];
      [|left; split; reflexivity].
    destruct verified; simpl; [|left; split; reflexivity].
    destruct (isVerifiedRef s) eqn:Hflag; simpl; [left; split; reflexivity|].
    right. split; [reflexivity|].
    match goal with |- context [confirmationBlock ?a ?b ?c ?d ?e ?s0] =>
      destruct (confirmationBlock_verdict a b c d e s0) as (Hup & t & p & i & Hlog)
    end.
    split; [exact Hup|]. exists txId, t, p, i. exact Hlog.
  - (* balance settles *)
    left. destruct (pending s !! id) as [[|initial purchased c|loop]|];
      try apply sameVerdict_refl.
    + eapply sameVerdict_trans; [|apply startPolling_verdict]. split; reflexivity.
    + eapply sameVerdict_trans; [|apply checkBalance_resume_verdict].
      split; reflexivity.
  - (* teardown *)
    left. unfold unmount.
    eapply sameVerdict_trans; [|apply clearIfSet_verdict].
    eapply sameVerdict_trans; [|apply clearIfSet_verdict].
    apply clearIfSet_verdict.
Qed.

Lemma confirmations_app (txId : string) (s s' : Component) (l : list Effect) :
  log s' = log s ++ l ->
  confirmations txId s' =
    (confirmations txId s
     + length (filter (fun e => isConfirmationOf txId e = true) l))%nat.
Proof.
  intros Hlog. unfold confirmations. rewrite Hlog, filter_app, length_app.
  reflexivity.
Qed.

(** With no new purchase, the confirmation block runs at most once more,
    and not at all once the flag is up. *)
Lemma run_confirmations (events : list Event) (s : Component) (txId : string) :
  forallb (fun e => negb (isBuy e)) events = true ->
  (confirmations txId (run s events)
   <= confirmations txId s + (if isVerifiedRef s then 0 else 1))%nat.
Proof.
  revert s. induction events as [|e events IH]; intros s Hev; simpl in *.
  - lia.
  - apply andb_true_iff in Hev as [He Hev]. apply negb_true_iff in He.
    specialize (IH (step s e) Hev).
    destruct (step_verdict s e He) as [[Hlog Hflag]|(Hdown & Hup & tx & t & p & i & Hlog)].
    + unfold confirmations in *. rewrite Hlog, Hflag in IH. exact IH.
    + rewrite Hup in IH. rewrite Hdown.
      rewrite (confirmations_app txId s (step s e) _ Hlog) in IH.
      rewrite filter_cons, filter_cons_False, filter_nil in IH by (simpl; discriminate).
      case_decide; simpl in IH; lia.
Qed.

(** X1: within one verification session, that is from a call of
    [verifyTransactionWithBackend] up to the next one, the confirmation
    block runs at most once, however many polls were sent and however many
    of them come back verified. *)
Lemma session_confirms_at_most_once (txId : string) (packs : Z)
    (ib : option Z) (c : Closure) (now : Z) (s : Component)
    (events : list Event) (tx : string) :
  forallb (fun e => negb (isBuy e)) events = true ->
  (confirmations tx (run s (buy txId packs ib c now :: events))
   <= confirmations tx s + 1)%nat.
Proof.
  intros Hev. simpl.
  pose proof (run_confirmations events
                (verifyTransactionWithBackend txId packs ib c now s) tx Hev) as H.
  assert (Hlog : log (verifyTransactionWithBackend txId packs ib c now s) = log s).
  { unfold verifyTransactionWithBackend, setTimer.
    cbn [log with_verificationIntervalRef with_timerIntervalRef with_nextId
           with_timers with_transactionTime with_transactionVerified
           with_isVerifiedRef with_startTimeRef].
    destruct (stopVerificationInterval_verdict s) as [Hl _].
    destruct (stopTimerInterval_verdict (stopVerificationInterval s)) as [Hl' _].
    congruence. }
  unfold confirmations in *. rewrite Hlog in H. fold (run (verifyTransactionWithBackend txId packs ib c now s) events).
  case_match; lia.
Qed.

(** C1 fails on the code: the flag [isVerifiedRef] is shared by all
    verification sessions and reset by every purchase, so a poll for
    transaction A that is still in flight when the next purchase starts
    finds the flag down when it comes back verified, and the confirmation
    block runs for A a second time; it also stops the timers of the new
    session, which never confirms B. *)
Theorem stale_poll_confirms_transaction_twice :
  let confirmedOnce := run (mounted 5) (take 4 stalePollTrace) in
  let final := run (mounted 5) stalePollTrace in
  confirmations "txA" confirmedOnce = 1%nat
  /\ confirmations "txA" final = 2%nat
  /\ log final =
       [ confirmationProcessed "txA" 2100; walletBalancePollingStarted 10 5;
         confirmationProcessed "txA" 100; walletBalancePollingStarted 10 5 ]
  /\ confirmations "txB" final = 0%nat
  /\ timers final = ∅.
Proof. vm_compute. repeat split; reflexivity. Qed.

(** ** The balance loop *)

(** The zero-balance test compares the balance with itself. *)
Lemma zero_balance_test_is_false (currentBalance : Z) (L : BalanceLoop) :
  (currentBalance =? 0)
  && (0 <? lastPolledBalance (setLastPolledBalance currentBalance L)) = false.
Proof.
  simpl. destruct (Z.eqb_spec currentBalance 0) as [->|]; reflexivity.
Qed.

(** A poll below the expected balance never takes the zero-balance
    branch: it resets the counter and goes on to the time check. *)
Lemma checkBalance_resume_below (loop : nat) (r : BalanceResponse) (now : Z)
    (s : Component) (L : BalanceLoop) (b : Z) :
  loops s !! loop = Some L ->
  fst (getWalletBalance (default "" (walletReady (closure L))) r) = Return b ->
  b < expectedBalance L ->
  checkBalance_resume loop r now s =
    checkPollingTime loop (setZeroBalanceCount 0 (setLastPolledBalance b L))
      now (with_remainingPixels b s).
Proof.
  intros HL Hb Hlt. unfold checkBalance_resume. rewrite HL, Hb.
  apply Z.leb_gt in Hlt. rewrite Hlt, zero_balance_test_is_false.
  reflexivity.
Qed.

(** A poll that reaches the expected balance reports it and stops the
    interval. *)
Lemma checkBalance_resume_reached (loop : nat) (r : BalanceResponse) (now : Z)
    (s : Component) (L : BalanceLoop) (b : Z) :
  loops s !! loop = Some L ->
  fst (getWalletBalance (default "" (walletReady (closure L))) r) = Return b ->
  expectedBalance L <= b ->
  checkBalance_resume loop r now s =
    stopWalletBalanceInterval (with_remainingPixels b s).
Proof.
  intros HL Hb Hle. unfold checkBalance_resume. rewrite HL, Hb.
  apply Z.leb_le in Hle. rewrite Hle. reflexivity.
Qed.

(** Stopping the interval removes its timer and empties the ref. *)
Lemma stopWalletBalanceInterval_stops (s : Component) (id : nat) :
  walletBalanceIntervalRef s = Some id ->
  timers (stopWalletBalanceInterval s) !! id = None /\
  walletBalanceIntervalRef (stopWalletBalanceInterval s) = None.
Proof.
  intros Href. unfold stopWalletBalanceInterval. rewrite Href. simpl.
  rewrite lookup_delete_eq. auto.
Qed.

(** C2 fails on the code: [lastPolledBalance] is overwritten with the
    current balance before the test [currentBalance === 0 &&
    lastPolledBalance > 0], so the zero-balance counter never leaves 0.
    After the balance was read as 5, 5 and then 0 four times in a row
    (polls 3 to 6), the interval is still running and the counter is 0. *)
Theorem zero_balance_polls_do_not_stop_polling :
  let s := run (mounted 5) zeroBalanceTrace in
  walletBalanceIntervalRef s = Some 7%nat
  /\ timers s !! 7%nat = Some (balanceTick 5)
  /\ remainingPixels s = 0
  /\ (pollCount <$> loops s !! 5%nat) = Some 6
  /\ (zeroBalanceCount <$> loops s !! 5%nat) = Some 0.
Proof. vm_compute. repeat split; reflexivity. Qed.

(** ** Failed polls *)

(** C7: a failed poll does not stop its loop.  When a poll of the
    verification loop or of the balance loop settles with a failed query
    and no stop condition of the loop holds at that moment, no timer is
    cleared, both interval refs are as before, and flag and log are
    untouched: the loop goes on with its next tick. *)
Theorem failed_poll_does_not_stop_the_loop (s : Component) (e : Event) :
  isFailedPoll s e = true ->
  ownStopConditionMet s e = false ->
  timers (step s e) = timers s
  /\ verificationIntervalRef (step s e) = verificationIntervalRef s
  /\ walletBalanceIntervalRef (step s e) = walletBalanceIntervalRef s
  /\ isVerifiedRef (step s e) = isVerifiedRef s
  /\ log (step s e) = log s.
Proof.
  destruct e as [| |id r now|id r now|]; simpl; try discriminate.
  - destruct (pending s !! id) as [[txId packs ib c| |]|]; try discriminate.
    intros Hfail _. unfold verificationTick_resume.
    destruct r; try discriminate Hfail; simpl; repeat split; reflexivity.
  - destruct (pending s !! id) as [[| |loop]|]; try discriminate.
    intros Hfail Hstop.
    assert (Hzero : forall a, fst (getWalletBalance a r) = Return 0)
      by (intros a; destruct r; try discriminate Hfail; reflexivity).
    destruct (loops s !! loop) as [L|] eqn:HL.
    + apply orb_false_iff in Hstop as [Hreach Htime].
      apply Z.leb_gt in Hreach.
      rewrite (checkBalance_resume_below loop r now
                 (with_pending (delete id (pending s)) s) L 0 HL (Hzero _) Hreach).
      unfold checkPollingTime.
      cbn [pollingStartTime setZeroBalanceCount setLastPolledBalance].
      rewrite Htime. repeat split; reflexivity.
    + unfold checkBalance_resume.
      cbn [loops with_pending]. rewrite HL. repeat split; reflexivity.
Qed.

Lemma failed_poll_does_not_stop_the_loop_witness :
  let polling := run (mounted 5) verifiedPurchase in
  let failedBalancePoll := balanceSettles 6 (httpError 503) (t0 + 1300) in
  let verifying := run (mounted 5) (take 2 verifiedPurchase) in
  let failedVerifyPoll := verifySettles 3 (verifyRejected "Failed to fetch") (t0 + 1100) in
  (timers (step polling failedBalancePoll) = timers polling
   /\ walletBalanceIntervalRef (step polling failedBalancePoll) = Some 7%nat)
  /\ (timers (step verifying failedVerifyPoll) = timers verifying
      /\ verificationIntervalRef (step verifying failedVerifyPoll) = Some 2%nat).
Proof.
  intros polling failedBalancePoll verifying failedVerifyPoll. split.
  - destruct (failed_poll_does_not_stop_the_loop polling failedBalancePoll)
      as (Ht & _ & Hw & _); [reflexivity|reflexivity|].
    split; [exact Ht|]. rewrite Hw. reflexivity.
  - destruct (failed_poll_does_not_stop_the_loop verifying failedVerifyPoll)
      as (Ht & Hv & _); [reflexivity|reflexivity|].
    split; [exact Ht|]. rewrite Hv. reflexivity.
Defined.

(** ** Teardown *)

(** X6: the unmount clean-up clears the three intervals its refs point to. *)
Lemma unmount_clears_tracked_intervals (s : Component) (id : nat) :
  verificationIntervalRef s = Some id \/ timerIntervalRef s = Some id
  \/ walletBalanceIntervalRef s = Some id ->
  timers (unmount s) !! id = None.
Proof.
  unfold unmount, clearIfSet, clearTimer.
  destruct (verificationIntervalRef s), (timerIntervalRef s),
    (walletBalanceIntervalRef s); simpl; intros [H|[H|H]];
    try discriminate H; try injection H as ->;
    rewrite ?lookup_delete; repeat case_decide; congruence.
Qed.

(** The safety timeout of the balance loop is not tracked by a ref and
    survives the unmount; and a balance loop whose first balance check was
    in flight at the unmount is started after it. *)
Lemma unmount_leaves_balance_timers :
  timers (run (mounted 5) (verifiedPurchase ++ [teardown]))
    = {[ 8%nat := balanceSafetyTimeout ]}
  /\ timers (run (mounted 5) unmountedWhileChecking)
    = {[ 7%nat := balanceTick 5; 8%nat := balanceSafetyTimeout ]}.
Proof. vm_compute. split; reflexivity. Qed.

End PollingProperties.

Section TrackingProperties.
Import Api Polling Tracking.

Lemma addsNo_refl (s : Component) : addsNoVerificationTimer s s.
Proof. repeat split; auto. Qed.

Lemma addsNo_trans (s1 s2 s3 : Component) :
  addsNoVerificationTimer s1 s2 -> addsNoVerificationTimer s2 s3 ->
  addsNoVerificationTimer s1 s3.
Proof.
  intros (H1 & H2 & H3) (H4 & H5 & H6). repeat split; try congruence.
  intros id cb Hcb Hl. apply H3; [exact Hcb|]. apply H6; assumption.
Qed.

Lemma tracked_addsNo (s s' : Component) :
  verificationTimersTracked s -> addsNoVerificationTimer s s' ->
  verificationTimersTracked s'.
Proof.
  intros Htr (Hv & Ht & Hsub) id cb Hl.
  destruct cb as [|txId packs ib c| |]; try exact I.
  - rewrite Ht. apply (Htr id elapsedTick). apply Hsub; [reflexivity|exact Hl].
  - rewrite Hv. apply (Htr id (verificationTick txId packs ib c)).
    apply Hsub; [reflexivity|exact Hl].
Qed.

Lemma clearIfSet_addsNo (ref : option nat) (s : Component) :
  addsNoVerificationTimer s (clearIfSet ref s).
Proof.
  destruct ref as [id0|]; [|apply addsNo_refl].
  repeat split; try reflexivity. intros id cb _. simpl.
  rewrite lookup_delete. case_decide; [discriminate|auto].
Qed.

Lemma stopWalletBalanceInterval_addsNo (s : Component) :
  addsNoVerificationTimer s (stopWalletBalanceInterval s).
Proof.
  unfold stopWalletBalanceInterval.
  destruct (clearIfSet_addsNo (walletBalanceIntervalRef s) s) as (H1 & H2 & H3).
  repeat split; assumption.
Qed.

Lemma await_addsNo (k : Continuation) (s : Component) :
  addsNoVerificationTimer s (await k s).
Proof. repeat split; auto. Qed.

Lemma updateLoop_addsNo (loop : nat) (L : BalanceLoop) (s : Component) :
  addsNoVerificationTimer s (updateLoop loop L s).
Proof. repeat split; auto. Qed.

Lemma checkBalance_addsNo (loop : nat) (s : Component) :
  addsNoVerificationTimer s (checkBalance loop s).
Proof.
  unfold checkBalance. destruct (loops s !! loop) as [L|]; [|apply addsNo_refl].
  destruct (walletReady (closure L)); repeat split; auto.
Qed.

Lemma checkPollingTime_addsNo (loop : nat) (L : BalanceLoop) (now : Z)
    (s : Component) :
  addsNoVerificationTimer s (checkPollingTime loop L now s).
Proof.
  unfold checkPollingTime. case_match.
  - eapply addsNo_trans; [apply updateLoop_addsNo|apply stopWalletBalanceInterval_addsNo].
  - apply updateLoop_addsNo.
Qed.

Lemma with_remainingPixels_addsNo (b : Z) (s : Component) :
  addsNoVerificationTimer s (with_remainingPixels b s).
Proof. repeat split; auto. Qed.

Lemma checkBalance_resume_addsNo (loop : nat) (r : BalanceResponse) (now : Z)
    (s : Component) :
  addsNoVerificationTimer s (checkBalance_resume loop r now s).
Proof.
  unfold checkBalance_resume.
  destruct (loops s !! loop) as [L|]; [|apply addsNo_refl].
  destruct (fst (getWalletBalance _ r)) as [b|]; [|apply addsNo_refl].
  eapply addsNo_trans; [apply (with_remainingPixels_addsNo b)|].
  repeat case_match;
    first [apply stopWalletBalanceInterval_addsNo
          |apply checkPollingTime_addsNo
          |eapply addsNo_trans;
           [apply updateLoop_addsNo|apply stopWalletBalanceInterval_addsNo]].
Qed.

(** Setting a timer of the balance loop adds no verification timer. *)
Lemma setTimer_addsNo (cb : TimerCallback) (s : Component) :
  isVerificationTimer cb = false ->
  addsNoVerificationTimer s (snd (setTimer cb s)).
Proof.
  intros Hcb. repeat split; try reflexivity. intros id cb' Hcb'. simpl.
  rewrite lookup_insert. case_decide; [|auto].
  intros [= <-]. congruence.
Qed.

Lemma startPolling_addsNo (initial pixelsPurchased : Z) (c : Closure)
    (actual now : Z) (s : Component) :
  addsNoVerificationTimer s (startPolling initial pixelsPurchased c actual now s).
Proof.
  unfold startPolling. case_match; [apply with_remainingPixels_addsNo|].
  match goal with |- context [checkBalance ?l ?s0] =>
    assert (H0 : addsNoVerificationTimer s s0) by (repeat split; auto);
    pose proof (checkBalance_addsNo l s0) as H1;
    generalize dependent (checkBalance l s0)
  end.
  intros s1 H1. pose proof (addsNo_trans _ _ _ H0 H1) as H2. clear H0 H1.
  pose proof (setTimer_addsNo (balanceTick (nextId s)) s1 eq_refl) as H3.
  destruct (setTimer (balanceTick (nextId s)) s1) as [interval s2] eqn:E.
  simpl in H3.
  eapply addsNo_trans; [exact H2|]. eapply addsNo_trans; [exact H3|].
  eapply addsNo_trans;
    [|apply (setTimer_addsNo balanceSafetyTimeout
               (with_walletBalanceIntervalRef (Some interval) s2) eq_refl)].
  repeat split; auto.
Qed.

Lemma startWalletBalancePolling_addsNo (pixelsPurchased : Z)
    (provided : option Z) (c : Closure) (now : Z) (s : Component) :
  addsNoVerificationTimer s
    (startWalletBalancePolling pixelsPurchased provided c now s).
Proof.
  unfold startWalletBalancePolling.
  eapply addsNo_trans; [apply stopWalletBalanceInterval_addsNo|].
  destruct (walletReady c); [apply await_addsNo|apply startPolling_addsNo].
Qed.

(** Stopping the verification poll leaves no verification poll alive. *)
Lemma stopVerificationInterval_tracked (s : Component) :
  verificationTimersTracked s ->
  verificationTimersTracked (stopVerificationInterval s)
  /\ (forall id txId packs ib c,
        timers (stopVerificationInterval s) !! id
        <> Some (verificationTick txId packs ib c))
  /\ timerIntervalRef (stopVerificationInterval s) = timerIntervalRef s
  /\ (forall id, timers (stopVerificationInterval s) !! id = Some elapsedTick ->
        timers s !! id = Some elapsedTick).
Proof.
  intros Htr. unfold stopVerificationInterval.
  assert (Hnone : forall id txId packs ib c,
             timers (clearIfSet (verificationIntervalRef s) s) !! id
             <> Some (verificationTick txId packs ib c)).
  { intros id txId packs ib c Hl.
    destruct (verificationIntervalRef s) as [r|] eqn:Hr; simpl in Hl.
    - rewrite lookup_delete in Hl. case_decide; [discriminate|].
      apply Htr in Hl. congruence.
    - apply Htr in Hl. congruence. }
  assert (Hsub : forall id cb,
             timers (clearIfSet (verificationIntervalRef s) s) !! id = Some cb ->
             timers s !! id = Some cb).
  { intros id cb. destruct (verificationIntervalRef s); simpl; [|auto].
    rewrite lookup_delete. case_decide; [discriminate|auto]. }
  assert (Hrefs : timerIntervalRef (clearIfSet (verificationIntervalRef s) s)
                  = timerIntervalRef s)
    by (destruct (verificationIntervalRef s); reflexivity).
  repeat split.
  - intros id cb Hl. cbn [timers with_verificationIntervalRef] in Hl.
    destruct cb as [|txId packs ib c| |]; try exact I.
    + cbn [timerIntervalRef with_verificationIntervalRef]. rewrite Hrefs.
      apply (Htr id elapsedTick). apply Hsub. exact Hl.
    + exfalso. exact (Hnone _ _ _ _ _ Hl).
  - exact Hnone.
  - exact Hrefs.
  - intros id. apply Hsub.
Qed.

(** Stopping the elapsed ticker leaves no elapsed ticker alive. *)
Lemma stopTimerInterval_tracked (s : Component) :
  verificationTimersTracked s ->
  verificationTimersTracked (stopTimerInterval s)
  /\ (forall id, timers (stopTimerInterval s) !! id <> Some elapsedTick)
  /\ verificationIntervalRef (stopTimerInterval s) = verificationIntervalRef s
  /\ (forall id cb, timers (stopTimerInterval s) !! id = Some cb ->
        timers s !! id = Some cb).
Proof.
  intros Htr. unfold stopTimerInterval.
  assert (Hnone : forall id,
             timers (clearIfSet (timerIntervalRef s) s) !! id <> Some elapsedTick).
  { intros id Hl.
    destruct (timerIntervalRef s) as [r|] eqn:Hr; simpl in Hl.
    - rewrite lookup_delete in Hl. case_decide; [discriminate|].
      apply Htr in Hl. congruence.
    - apply Htr in Hl. congruence. }
  assert (Hsub : forall id cb,
             timers (clearIfSet (timerIntervalRef s) s) !! id = Some cb ->
             timers s !! id = Some cb).
  { intros id cb. destruct (timerIntervalRef s); simpl; [|auto].
    rewrite lookup_delete. case_decide; [discriminate|auto]. }
  assert (Hrefs : verificationIntervalRef (clearIfSet (timerIntervalRef s) s)
                  = verificationIntervalRef s)
    by (destruct (timerIntervalRef s); reflexivity).
  repeat split.
  - intros id cb Hl. cbn [timers with_timerIntervalRef] in Hl.
    destruct cb as [|txId packs ib c| |]; try exact I.
    + exfalso. exact (Hnone _ Hl).
    + cbn [verificationIntervalRef with_timerIntervalRef]. rewrite Hrefs.
      apply (Htr id (verificationTick txId packs ib c)).
      apply Hsub. exact Hl.
  - exact Hnone.
  - exact Hrefs.
  - intros id cb. apply Hsub.
Qed.

Lemma verifyTransactionWithBackend_tracked (txId : string) (packs : Z)
    (ib : option Z) (c : Closure) (now : Z) (s : Component) :
  verificationTimersTracked s ->
  verificationTimersTracked (verifyTransactionWithBackend txId packs ib c now s).
Proof.
  intros Htr.
  destruct (stopVerificationInterval_tracked s Htr) as (Htr1 & Hnov & _ & _).
  destruct (stopTimerInterval_tracked _ Htr1) as (_ & Hnoe & _ & Hsub).
  unfold verifyTransactionWithBackend, setTimer.
  set (s2 := stopTimerInterval (stopVerificationInterval s)) in *.
  cbn [nextId timers with_nextId with_timers with_timerIntervalRef
         with_transactionTime with_transactionVerified with_isVerifiedRef
         with_startTimeRef].
  intros id cb.
  cbn [timers verificationIntervalRef timerIntervalRef
         with_verificationIntervalRef with_nextId with_timers
         with_timerIntervalRef].
  rewrite lookup_insert. case_decide as Hp.
  - intros [= <-]. rewrite Hp. reflexivity.
  - rewrite lookup_insert. case_decide as Ht.
    + intros [= <-]. rewrite Ht. reflexivity.
    + intros Hl. destruct cb as [|tx p i c0| |]; try exact I.
      * exfalso. exact (Hnoe _ Hl).
      * exfalso. apply Hsub in Hl. exact (Hnov _ _ _ _ _ Hl).
Qed.

Lemma confirmationBlock_tracked (txId : string) (packs : Z) (ib : option Z)
    (c : Closure) (now : Z) (s : Component) :
  verificationTimersTracked s ->
  verificationTimersTracked (confirmationBlock txId packs ib c now s).
Proof.
  intros Htr. unfold confirmationBlock.
  eapply tracked_addsNo; [|apply startWalletBalancePolling_addsNo].
  set (s1 := with_transactionVerified true (with_isVerifiedRef true s)).
  assert (Htr1 : verificationTimersTracked s1) by exact Htr.
  destruct (stopVerificationInterval_tracked s1 Htr1) as (Htr2 & _).
  destruct (stopTimerInterval_tracked _ Htr2) as (Htr3 & _).
  exact Htr3.
Qed.

(** Every turn of the event loop keeps the verification timers tracked. *)
Lemma step_tracked (s : Component) (e : Event) :
  verificationTimersTracked s -> verificationTimersTracked (step s e).
Proof.
  intros Htr.
  destruct e as [txId packs ib c now|id now|id r now|id r now|]; simpl.
  - apply verifyTransactionWithBackend_tracked. exact Htr.
  - destruct (timers s !! id) as [[|txId packs ib c|loop|]|]; try exact Htr.
    + unfold elapsedTick_run. repeat case_match; exact Htr.
    + unfold verificationTick_run. case_match.
      * apply stopVerificationInterval_tracked. exact Htr.
      * exact Htr.
    + eapply tracked_addsNo; [exact Htr|apply checkBalance_addsNo].
    + unfold balanceSafetyTimeout_run.
      eapply tracked_addsNo; [exact Htr|].
      eapply addsNo_trans; [|apply stopWalletBalanceInterval_addsNo].
      apply (clearIfSet_addsNo (Some id)).
  - destruct (pending s !! id) as [[txId packs ib c| |]|]; try exact Htr.
    unfold verificationTick_resume.
    destruct (fst (verifyTransaction txId r)) as [verified|]; [|exact Htr].
    case_match; [|exact Htr].
    apply confirmationBlock_tracked. exact Htr.
  - destruct (pending s !! id) as [[|initial purchased c|loop]|]; try exact Htr.
    + eapply tracked_addsNo; [|apply startPolling_addsNo]. exact Htr.
    + eapply tracked_addsNo; [|apply checkBalance_resume_addsNo]. exact Htr.
  - unfold unmount. eapply tracked_addsNo; [exact Htr|].
    eapply addsNo_trans; [|apply clearIfSet_addsNo].
    eapply addsNo_trans; [|apply clearIfSet_addsNo].
    apply clearIfSet_addsNo.
Qed.

Lemma run_tracked (events : list Event) (s : Component) :
  verificationTimersTracked s -> verificationTimersTracked (run s events).
Proof.
  revert s. induction events as [|e events IH]; intros s Htr; [exact Htr|].
  simpl. apply IH. apply step_tracked. exact Htr.
Qed.

(** X2: the verification timers never pile up: in every run of the component,
    whatever the purchases, polls, answers and unmounts, at most one
    verification poll and at most one elapsed ticker are alive, and a live
    one is the one its ref holds. *)
Theorem verification_timers_never_pile_up (balance : Z) (events : list Event)
    (id id' : nat) (cb cb' : TimerCallback) :
  let s := run (mounted balance) events in
  timers s !! id = Some cb -> timers s !! id' = Some cb' ->
  (isVerificationPoll cb = true -> isVerificationPoll cb' = true ->
   id = id' /\ verificationIntervalRef s = Some id)
  /\ (cb = elapsedTick -> cb' = elapsedTick ->
      id = id' /\ timerIntervalRef s = Some id).
Proof.
  intros s Hl Hl'.
  assert (Htr : verificationTimersTracked s).
  { apply run_tracked. intros i c. simpl. rewrite lookup_empty. discriminate. }
  pose proof (Htr id cb Hl) as H1. pose proof (Htr id' cb' Hl') as H2.
  split.
  - destruct cb, cb'; try discriminate. intros _ _. split; congruence.
  - intros -> ->. split; congruence.
Qed.

End TrackingProperties.

Section HookTrackingProperties.
Import WebSocketHook HookTracking.

Lemma tracked_sameTimers (h h' : Hook) :
  hookTimersTracked h -> sameTimers h h' -> hookTimersTracked h'.
Proof.
  intros Htr (Ht & Hp & Hr) id cb. rewrite Ht, Hp, Hr. apply Htr.
Qed.

Lemma close_sameTimers (socket : nat) (h : Hook) : sameTimers h (close socket h).
Proof.
  unfold close. destruct (sockets h !! socket) as [[]|]; repeat split.
Qed.

Lemma scheduleReconnect_tracked (h : Hook) :
  hookTimersTracked h -> hookTimersTracked (scheduleReconnect h).
Proof.
  intros Htr id cb. unfold scheduleReconnect, setTimer.
  destruct (reconnectTimeoutRef h) as [r|] eqn:Hr;
    cbn [clearIfSet timers nextId pingIntervalRef reconnectTimeoutRef
           with_timers with_nextId with_reconnectTimeoutRef];
    rewrite lookup_insert; case_decide as Hid;
    try (intros [= <-]; rewrite Hid; reflexivity).
  - rewrite lookup_delete. case_decide as Hd; [discriminate|]. intros Hl.
    pose proof (Htr id cb Hl) as Hx. destruct cb; [exact Hx|congruence].
  - intros Hl. pose proof (Htr id cb Hl) as Hx. destruct cb; [exact Hx|congruence].
Qed.

Lemma connectWebSocket_tracked (h : Hook) :
  hookTimersTracked h -> hookTimersTracked (connectWebSocket h).
Proof.
  intros Htr. unfold connectWebSocket.
  destruct (socketRef h ≫= _) as [[]|];
    try exact Htr;
    (destruct (urlAccepted h) eqn:Hurl;
     cbn [urlAccepted with_isConnecting]; rewrite Hurl;
     [exact Htr|apply scheduleReconnect_tracked; exact Htr]).
Qed.

Lemma onopen_tracked (socket : nat) (h : Hook) :
  hookTimersTracked h -> hookTimersTracked (onopen socket h).
Proof.
  intros Htr id cb. unfold onopen, setTimer.
  destruct (pingIntervalRef h) as [r|] eqn:Hr;
    cbn [clearIfSet timers nextId pingIntervalRef reconnectTimeoutRef
           with_timers with_nextId with_pingIntervalRef with_isConnecting
           with_isConnected];
    rewrite ?Hr;
    cbn [clearIfSet timers nextId pingIntervalRef reconnectTimeoutRef
           with_timers with_nextId with_pingIntervalRef with_isConnecting
           with_isConnected];
    rewrite lookup_insert; case_decide as Hid;
    try (intros [= <-]; rewrite Hid; reflexivity).
  - rewrite lookup_delete. case_decide as Hd; [discriminate|]. intros Hl.
    pose proof (Htr id cb Hl) as Hx. destruct cb; [congruence|exact Hx].
  - intros Hl. pose proof (Htr id cb Hl) as Hx. destruct cb; [congruence|exact Hx].
Qed.

Lemma onclose_tracked (h : Hook) :
  hookTimersTracked h -> hookTimersTracked (onclose h).
Proof.
  intros Htr. unfold onclose. apply scheduleReconnect_tracked.
  intros id cb.
  destruct (pingIntervalRef h) as [r|] eqn:Hr;
    cbn [clearIfSet timers nextId pingIntervalRef reconnectTimeoutRef
           with_timers with_pingIntervalRef with_isConnecting with_isConnected];
    rewrite ?Hr;
    cbn [clearIfSet timers nextId pingIntervalRef reconnectTimeoutRef
           with_timers with_pingIntervalRef with_isConnecting with_isConnected].
  - rewrite lookup_delete. case_decide as Hd; [discriminate|]. intros Hl.
    pose proof (Htr id cb Hl) as Hx. destruct cb; [congruence|exact Hx].
  - intros Hl. pose proof (Htr id cb Hl) as Hx. destruct cb; [congruence|exact Hx].
Qed.

(** Clearing a timer keeps the rest tracked. *)
Lemma clearIfSet_tracked (ref : option nat) (h : Hook) :
  hookTimersTracked h -> hookTimersTracked (clearIfSet ref h).
Proof.
  intros Htr. destruct ref as [r|]; [|exact Htr]. intros id cb. simpl.
  rewrite lookup_delete. case_decide; [discriminate|]. apply Htr.
Qed.

Lemma cleanup_tracked (h : Hook) :
  hookTimersTracked h -> hookTimersTracked (cleanup h).
Proof.
  intros Htr. unfold cleanup.
  set (h1 := match socketRef h with Some socket => close socket h | None => h end).
  assert (H1 : hookTimersTracked h1).
  { unfold h1. destruct (socketRef h); [|exact Htr].
    eapply tracked_sameTimers; [exact Htr|apply close_sameTimers]. }
  apply clearIfSet_tracked, clearIfSet_tracked. exact H1.
Qed.

Lemma step_hook_tracked (h : Hook) (e : Event) :
  hookTimersTracked h -> hookTimersTracked (step h e).
Proof.
  intros Htr. destruct e as [|socket|socket|socket|socket m now|id now|]; simpl.
  - apply connectWebSocket_tracked. exact Htr.
  - destruct (sockets h !! socket) as [[]|]; try exact Htr.
    apply onopen_tracked. exact Htr.
  - destruct (sockets h !! socket) as [[]|]; try exact Htr;
      apply onclose_tracked; exact Htr.
  - unfold onerror.
    destruct (sockets h !! socket) as [[]|]; try exact Htr;
      (eapply tracked_sameTimers; [exact Htr|apply close_sameTimers]).
  - destruct (sockets h !! socket) as [[]|]; try exact Htr.
    destruct m; exact Htr.
  - destruct (timers h !! id) as [[socket|]|] eqn:Hid; try exact Htr.
    + unfold pingTick_run. destruct (sockets h !! socket) as [[]|]; try exact Htr.
      case_match; [|exact Htr].
      eapply tracked_sameTimers; [|apply close_sameTimers]. exact Htr.
    + apply connectWebSocket_tracked.
      apply (clearIfSet_tracked (Some id) h Htr).
  - apply cleanup_tracked. exact Htr.
Qed.

Lemma run_hook_tracked (events : list Event) (h : Hook) :
  hookTimersTracked h -> hookTimersTracked (run h events).
Proof.
  revert h. induction events as [|e events IH]; intros h Htr; [exact Htr|].
  simpl. apply IH. apply step_hook_tracked. exact Htr.
Qed.

(** X7: the hook's timers never pile up: in every run, whatever the socket
    events, frames, timer firings, mounts and unmounts, at most one heartbeat
    interval and at most one reconnect timer are alive, and a live one is the
    one its ref holds. *)
Theorem hook_timers_never_pile_up (accepted : bool) (now : Z)
    (events : list Event) (id id' : nat) (cb cb' : TimerCallback) :
  let h := run (rendered accepted now) events in
  timers h !! id = Some cb -> timers h !! id' = Some cb' ->
  ((exists socket, cb = pingTick socket) -> (exists socket, cb' = pingTick socket) ->
   id = id' /\ pingIntervalRef h = Some id)
  /\ (cb = reconnectTimeout -> cb' = reconnectTimeout ->
      id = id' /\ reconnectTimeoutRef h = Some id).
Proof.
  intros h Hl Hl'.
  assert (Htr : hookTimersTracked h).
  { apply run_hook_tracked. intros i c. simpl. rewrite lookup_empty. discriminate. }
  pose proof (Htr id cb Hl) as H1. pose proof (Htr id' cb' Hl') as H2.
  split.
  - intros [s1 ->] [s2 ->]. split; congruence.
  - intros -> ->. split; congruence.
Qed.

End HookTrackingProperties.

Section MoreMergeProperties.
Import WebSocketHook Merge Scenarios.

Lemma pixelKey_inj_witness :
  pixelKey 10 20 = pixelKey 10 20 /\ (10 = 10 /\ 20 = 20).
Proof. split; [reflexivity|]. apply (pixelKey_inj 10 20 10 20). reflexivity. Defined.

Lemma in_order_delivery_last_accepted_wins_witness :
  acceptedInOrder [redFirst; blueLast] = true /\
  chronologicalLastWins [redFirst; blueLast] emptyView "0,0".
Proof.
  split; [reflexivity|].
  apply (in_order_delivery_last_accepted_wins [redFirst; blueLast] emptyView "0,0").
  - discriminate.
  - repeat constructor.
  - reflexivity.
Defined.

(** X15: an empty snapshot, as broadcast after the canvas was wiped, empties the
    hook's [canvasState] but is not merged: the local view keeps every cell
    it had. *)
Theorem empty_snapshot_keeps_local_view (v : ClientView) :
  canvasState (receive (canvas_state ∅) v) = ∅ /\
  localCanvasState (receive (canvas_state ∅) v) = localCanvasState v.
Proof. unfold receive, mergeEffect; simpl. split; reflexivity. Qed.

End MoreMergeProperties.

Section MoreClickProperties.
Import Click Scenarios.

(** X16: a request that [handlePixelClick] sends is always for a cell of the
    grid: both coordinates are multiples of the grid size inside the canvas,
    the colour starts with [#], the wallet address is not empty, and the
    cell was painted locally with the selected colour first. *)
Theorem placed_requests_are_on_the_grid (p : Props) (e : ClickEvent)
    (v v1 : View) (args : PlacePixelArgs) :
  handlePixelClick_begin p e v = Awaiting v1 args ->
  (px args mod GRID_SIZE = 0 /\ 0 <= px args < canvasWidth p)
  /\ (py args mod GRID_SIZE = 0 /\ 0 <= py args < canvasHeight p)
  /\ startsWith "#" (pcolor args) = true
  /\ wallet_address args <> ""
  /\ localCanvasState v1 !! pixelKey (px args) (py args) = Some (selectedColor p).
Proof.
  unfold handlePixelClick_begin.
  destruct (isMobile p); [discriminate|].
  destruct (isConnected p); cbn [negb]; [|discriminate].
  destruct (remainingPixels v <=? 0); [discriminate|].
  destruct (canvasMounted p); cbn [negb]; [|discriminate].
  set (x := rawX e / GRID_SIZE * GRID_SIZE).
  set (y := rawY e / GRID_SIZE * GRID_SIZE).
  destruct (Z.ltb_spec x 0); cbn [orb]; [discriminate|].
  destruct (Z.leb_spec (canvasWidth p) x); cbn [orb]; [discriminate|].
  destruct (Z.ltb_spec y 0); cbn [orb]; [discriminate|].
  destruct (Z.leb_spec (canvasHeight p) y); cbn [orb]; [discriminate|].
  destruct (backendStatus p); try discriminate.
  match goal with |- Awaiting ?V ?A = _ -> _ =>
    remember A as A0 eqn:HA; remember V as V0 eqn:HV
  end.
  intros [= <- <-]. subst V0 A0.
  cbn [px py pcolor wallet_address localCanvasState placePixel
         setLocalCanvasState].
  repeat split; try lia.
  - unfold x. apply Z.mod_mul. discriminate.
  - unfold y. apply Z.mod_mul. discriminate.
  - destruct (startsWith "#" (selectedColor p)) eqn:Hs; [exact Hs|reflexivity].
  - destruct (address p) as [a|]; [|discriminate].
    destruct (String.eqb_spec a ""); [discriminate|assumption].
  - apply lookup_insert_eq.
Qed.

Lemma placed_requests_are_on_the_grid_witness :
  exists v1 args,
    handlePixelClick_begin desktopProps clickAtOrigin whiteCellView
    = Awaiting v1 args
    /\ (px args mod GRID_SIZE = 0 /\ 0 <= px args < 1000).
Proof.
  eexists _, _. split; [reflexivity|].
  apply (placed_requests_are_on_the_grid desktopProps clickAtOrigin
           whiteCellView _ _ eq_refl).
Defined.

(** X17: when the handler returns without waiting for the backend, it has sent
    no request; and then either the grid and the balance are as before, or
    the backend was not online and the click was applied locally only, with
    the balance lowered by one. *)
Theorem click_without_request (p : Props) (e : ClickEvent) (v after : View) :
  handlePixelClick_begin p e v = Finished after ->
  placePixelCalls after = placePixelCalls v
  /\ ((localCanvasState after = localCanvasState v
       /\ remainingPixels after = remainingPixels v)
      \/ (backendStatus p <> online
          /\ localCanvasState after
             = <[clickedKey e := selectedColor p]> (localCanvasState v)
          /\ remainingPixels after = remainingPixels v - 1
          /\ localMode ∈ toasts after)).
Proof.
  unfold handlePixelClick_begin, clickedKey.
  destruct (isMobile p); [intros [= <-]; simpl; auto|].
  destruct (isConnected p); simpl; [|intros [= <-]; simpl; auto].
  destruct (remainingPixels v <=? 0); [intros [= <-]; simpl; auto|].
  destruct (canvasMounted p); simpl; [|intros [= <-]; auto].
  match goal with |- context [if ?c then Finished v else _] => destruct c end;
    [intros [= <-]; auto|].
  destruct (backendStatus p) eqn:Hst; try discriminate;
    intros [= <-];
    match goal with |- context [lastPixelNotice ?c ?w] =>
      destruct (lastPixelNotice_fields c w) as (-> & -> & _ & -> & Htoast)
    end;
    (split; [reflexivity|right]; repeat split; try reflexivity;
     [discriminate|apply Htoast; simpl; apply elem_of_app; right;
                   apply list_elem_of_singleton; reflexivity]).
Qed.

Lemma click_without_request_witness :
  placePixelCalls (toast walletNotConnected brokeView) = placePixelCalls brokeView.
Proof.
  apply (click_without_request
           {| isMobile := false; isConnected := false; address := None;
              backendStatus := online; selectedColor := "#FF0000";
              canvasWidth := 1000; canvasHeight := 1000; canvasMounted := true |}
           clickAtOrigin brokeView).
  reflexivity.
Defined.

(** X18: when the backend accepts the write, the handler leaves the local
    canvas as it finds it at that moment and sends nothing more; the balance
    becomes the [remaining_balance] of the answer, or one less than the
    balance of that moment when the answer has none; the purchase modal is
    left as it is, and the only notice is the last-pixel one, raised when
    the balance the handler closed over was 1. *)
Theorem accepted_write_updates_balance (closedRemaining : Z)
    (remaining_balance : option Z) (atAnswer : View) :
  let after :=
    handlePixelClick_resume closedRemaining (placed remaining_balance) atAnswer in
  localCanvasState after = localCanvasState atAnswer
  /\ placePixelCalls after = placePixelCalls atAnswer
  /\ remainingPixels after
     = default (remainingPixels atAnswer - 1) remaining_balance
  /\ showPurchaseModal after = showPurchaseModal atAnswer
  /\ toasts after
     = toasts atAnswer
       ++ (if closedRemaining =? 1 then [outOfPixels false] else []).
Proof.
  unfold handlePixelClick_resume, lastPixelNotice.
  destruct remaining_balance as [b|], (closedRemaining =? 1); simpl;
    rewrite ?app_nil_r; repeat split; reflexivity.
Qed.

(** X19: while a write waits for its answer, a delta for any other cell undoes
    the optimistic colour whenever the hook's [canvasState] holds a colour
    for the clicked cell: the merge effect copies that older colour back
    over the local one. *)
Theorem optimistic_cell_reverted_by_other_delta (p : Props) (e : ClickEvent)
    (v v1 : View) (args : PlacePixelArgs) (hookState : gmap string string)
    (x y : Z) (color old : string) :
  handlePixelClick_begin p e v = Awaiting v1 args ->
  hookState !! clickedKey e = Some old ->
  pixelKey x y <> clickedKey e ->
  localCanvasState v1 !! clickedKey e = Some (selectedColor p)
  /\ Merge.localCanvasState
       (Merge.receive (WebSocketHook.pixel_update x y color)
          {| Merge.canvasState := hookState;
             Merge.localCanvasState := localCanvasState v1 |})
       !! clickedKey e = Some old.
Proof.
  intros Hbegin Hold Hne. split.
  - destruct (handlePixelClick_begin_awaiting p e v v1 args Hbegin) as (-> & _).
    apply lookup_insert_eq.
  - unfold Merge.receive; simpl.
    rewrite mergeEffect_lookup, (lookup_insert_ne _ _ _ _ Hne), Hold.
    reflexivity.
Qed.

Lemma optimistic_cell_reverted_by_other_delta_witness :
  exists v1 args,
    handlePixelClick_begin desktopProps clickAtOrigin whiteCellView
    = Awaiting v1 args
    /\ localCanvasState v1 !! "0,0" = Some "#FF0000"
    /\ Merge.localCanvasState
         (Merge.receive (WebSocketHook.pixel_update 10 10 "#0000FF")
            {| Merge.canvasState := {[ "0,0" := "#FFFFFF" ]};
               Merge.localCanvasState := localCanvasState v1 |})
         !! "0,0" = Some "#FFFFFF".
Proof.
  eexists _, _. split; [reflexivity|].
  apply (optimistic_cell_reverted_by_other_delta desktopProps clickAtOrigin
           whiteCellView _ _ {[ "0,0" := "#FFFFFF" ]} 10 10 "#0000FF" "#FFFFFF"
           eq_refl).
  - reflexivity.
  - vm_compute. discriminate.
Defined.

End MoreClickProperties.
Section FetchProperties.
Import Api Fetch Boot Scenarios.

(** X20: a failed request for the pixel list is not an error for
    [fetchInitialCanvas]: [fetchPixels] turns it into the empty array, so
    the local canvas is emptied exactly as for an empty table, the backend
    status is left alone and no toast is raised. *)
Theorem failed_initial_fetch_is_an_empty_canvas
    (r : Response (list PixelData)) (b : Boot) :
  failed r = true ->
  fetchInitialCanvas r b = fetchInitialCanvas (body []) b
  /\ localCanvasState (fetchInitialCanvas r b) = ∅
  /\ backendStatus (fetchInitialCanvas r b) = backendStatus b
  /\ toasts (fetchInitialCanvas r b) = toasts b.
Proof.
  destruct r; intros Hf; try discriminate Hf; repeat split; reflexivity.
Qed.

Lemma failed_initial_fetch_is_an_empty_canvas_witness :
  localCanvasState
    (fetchInitialCanvas (status 502 "Bad Gateway")
       {| localCanvasState := {[ "0,0" := "#FFFFFF" ]};
          backendStatus := Click.connecting; toasts := [] |}) = ∅.
Proof.
  apply (failed_initial_fetch_is_an_empty_canvas (status 502 "Bad Gateway")).
  reflexivity.
Defined.

Lemma pixelsObject_snoc (pixelsArray : list PixelData) (pixel : PixelData) :
  pixelsObject (pixelsArray ++ [pixel]) =
    <[pixelKey (x pixel) (y pixel) := color pixel]> (pixelsObject pixelsArray).
Proof. unfold pixelsObject. rewrite foldl_app. reflexivity. Qed.

Lemma pixelsObject_lookup (pixelsArray : list PixelData) (k : string) :
  pixelsObject pixelsArray !! k = color <$> lastListed k pixelsArray.
Proof.
  induction pixelsArray as [|pixel pixelsArray IH] using rev_ind.
  - reflexivity.
  - rewrite pixelsObject_snoc. unfold lastListed in *. rewrite filter_app.
    destruct (decide (pixelKey (x pixel) (y pixel) = k)) as [Hk|Hk].
    + rewrite (filter_cons_True _ pixel [] Hk), filter_nil, last_snoc, Hk.
      apply lookup_insert_eq.
    + rewrite (filter_cons_False _ pixel [] Hk), filter_nil, app_nil_r.
      rewrite (lookup_insert_ne _ _ _ _ Hk). exact IH.
Qed.

(** X21: the canvas built from the fetched pixel list holds, for every cell, the
    colour of the last row listed for it, and nothing for a cell that no row
    names; whatever the local canvas held before is gone. *)
Theorem initial_canvas_shows_last_listed_pixel
    (pixelsArray : list PixelData) (b : Boot) (k : string) :
  localCanvasState (fetchInitialCanvas (body pixelsArray) b) !! k
  = color <$> lastListed k pixelsArray.
Proof.
  unfold fetchInitialCanvas; simpl.
  destruct pixelsArray as [|pixel rest]; [reflexivity|].
  simpl. apply pixelsObject_lookup.
Qed.

Lemma includes_app (needle prefix s : string) :
  Click.includes needle s = true -> Click.includes needle (prefix +:+ s) = true.
Proof.
  intros Hs. induction prefix as [|a prefix IH]; [exact Hs|].
  change (String a prefix +:+ s) with (String a (prefix +:+ s)).
  cbn [Click.includes]. rewrite IH. apply orb_true_r.
Qed.

(** X22: a write refused by the backend with a non-OK response whose text
    mentions the insufficient balance ends in the out-of-pixels branch of
    [handlePixelClick], whatever the status code: the message that
    [placePixel] throws carries the response text.  The balance is set to 0
    and the purchase modal opens. *)
Theorem insufficient_balance_response_opens_purchase (p : Click.Props)
    (e : Click.ClickEvent) (v v1 : Click.View) (args : Click.PlacePixelArgs)
    (code : Z) (text : string) :
  Click.handlePixelClick_begin p e v = Click.Awaiting v1 args ->
  Click.includes "Insufficient pixel balance" text = true ->
  let after := Click.handlePixelClick p e (placePixelResult (status code text)) v in
  Click.remainingPixels after = 0
  /\ Click.showPurchaseModal after = true
  /\ Click.outOfPixels true ∈ Click.toasts after.
Proof.
  intros Hbegin Htext after. subst after.
  unfold Click.handlePixelClick. rewrite Hbegin.
  unfold placePixelResult, placePixel. cbn [fst].
  unfold Click.handlePixelClick_resume.
  assert (Hm : Click.includes "Insufficient pixel balance"
                 ("Failed to place pixel: " +:+ pretty code +:+ " - " +:+ text)
               = true)
    by (do 3 apply includes_app; exact Htext).
  rewrite Hm.
  match goal with |- context [Click.lastPixelNotice ?c ?w] =>
    destruct (lastPixelNotice_fields c w) as (_ & -> & -> & _ & Htoast)
  end.
  repeat split; try reflexivity.
  apply Htoast. simpl. apply elem_of_app. right. apply list_elem_of_singleton.
  reflexivity.
Qed.

Lemma insufficient_balance_response_opens_purchase_witness :
  Click.remainingPixels
    (Click.handlePixelClick desktopProps clickAtOrigin
       (placePixelResult (status 400 "Insufficient pixel balance"))
       whiteCellView) = 0.
Proof.
  assert (Hb : exists v1 args,
             Click.handlePixelClick_begin desktopProps clickAtOrigin whiteCellView
             = Click.Awaiting v1 args) by (eexists _, _; reflexivity).
  destruct Hb as (v1 & args & Hb).
  apply (insufficient_balance_response_opens_purchase desktopProps clickAtOrigin
           whiteCellView v1 args 400 "Insufficient pixel balance" Hb).
  reflexivity.
Defined.

(** X23: the pack counter stays between 1 and 10 whatever buttons are pressed,
    starting from its initial value 1. *)
Theorem packs_stay_between_1_and_10 (presses : list PackButton) :
  1 <= foldl press 1 presses <= 10.
Proof.
  assert (H : forall p0, 1 <= p0 <= 10 -> 1 <= foldl press p0 presses <= 10).
  { induction presses as [|b presses IH]; intros p0 Hp; [exact Hp|].
    simpl. apply IH. destruct b; unfold press, incrementPacks, decrementPacks; lia. }
  apply H. lia.
Qed.

End FetchProperties.

Section ColorPickerProperties.
Import ColorPicker.

Lemma act_keeps_valid (p : Picker) (a : Action) :
  isValidHex (selectedColor p) = true ->
  isValidHex (selectedColor (act p a)) = true.
Proof.
  intros Hv. destruct a as [open|hex|hex|value| |index]; simpl; try exact Hv.
  - destruct (isValidHex (currentColor p)) eqn:Hc; [exact Hc|exact Hv].
  - destruct (PRESET_COLORS !! index) as [c|] eqn:Hi; [|exact Hv]. simpl.
    do 14 (destruct index as [|index]; [injection Hi as <-; reflexivity|]).
    discriminate Hi.
Qed.

(** Whatever is done with the colour picker, the colour it hands to the
    canvas is a [#] followed by six hexadecimal digits. *)
Lemma selected_color_valid (actions : list Action) :
  isValidHex (selectedColor (run initial actions)) = true.
Proof.
  assert (H : forall p, isValidHex (selectedColor p) = true ->
                        isValidHex (selectedColor (run p actions)) = true).
  { induction actions as [|a actions IH]; intros p Hp; [exact Hp|].
    simpl. apply IH, act_keeps_valid, Hp. }
  apply H. reflexivity.
Qed.

Lemma isValidHex_startsWith (hex : string) :
  isValidHex hex = true -> Click.startsWith "#" hex = true.
Proof.
  destruct hex as [|a rest]; [discriminate|]. cbn [isValidHex Click.startsWith].
  intros H. apply andb_true_iff in H as [H _]. apply andb_true_iff in H as [H _].
  rewrite Ascii.eqb_sym, H. reflexivity.
Qed.

(** X24: whatever is done with the colour picker (wheel, slider, typed text,
    presets, in any order), the colour that a later click sends to the
    backend is the selected colour itself, and it is a [#] followed by six
    hexadecimal digits: typed text reaches the canvas only through
    [applyCurrentColor], which checks it. *)
Theorem picked_color_is_sent_unchanged (actions : list Action)
    (p : Click.Props) (e : Click.ClickEvent) (v v1 : Click.View)
    (args : Click.PlacePixelArgs) :
  Click.selectedColor p = selectedColor (run initial actions) ->
  Click.handlePixelClick_begin p e v = Click.Awaiting v1 args ->
  Click.pcolor args = Click.selectedColor p
  /\ isValidHex (Click.pcolor args) = true.
Proof.
  intros Hsel Hbegin.
  pose proof (selected_color_valid actions) as Hvalid.
  rewrite <- Hsel in Hvalid.
  assert (Hcolor : Click.pcolor args = Click.selectedColor p).
  { pose proof (isValidHex_startsWith _ Hvalid) as Hs.
    revert Hbegin. unfold Click.handlePixelClick_begin. rewrite Hs.
    repeat (case_match; try discriminate);
      (match goal with |- Click.Awaiting ?V ?A = _ -> _ =>
         remember A as A0 eqn:HA; remember V as V0 eqn:HV
       end;
       intros [= <- <-]; subst A0; reflexivity). }
  rewrite Hcolor. split; [reflexivity|exact Hvalid].
Qed.

Lemma picked_color_is_sent_unchanged_witness :
  exists v1 args,
    Click.handlePixelClick_begin Scenarios.desktopProps Scenarios.clickAtOrigin
      Scenarios.whiteCellView = Click.Awaiting v1 args
    /\ Click.pcolor args = "#FF0000".
Proof.
  eexists _, _. split; [reflexivity|].
  apply (picked_color_is_sent_unchanged [hexChange "FF0000"; applyCurrentColor]
           Scenarios.desktopProps Scenarios.clickAtOrigin
           Scenarios.whiteCellView _ _ eq_refl eq_refl).
Defined.

End ColorPickerProperties.
Section WalletProperties.
Import Wallet.

(** X25: [sendTransaction] reaches the wallet extension at most once, and only
    when the wallet is installed, connected and present in the page; and it
    raises exactly one destructive toast when it throws and none when it
    returns. *)
Theorem sendTransaction_calls_and_toasts (isInstalled isConnected : bool)
    (kasware : option SendKaspa) (to : string) (sompi : Z)
    (options : option (option Z)) :
  let o := sendTransaction isInstalled isConnected kasware to sompi options in
  (calls o = []
   \/ (calls o = [{| toAddress := to; sompiAmount := sompi;
                     priorityFee := default (Some 1) options |}]
       /\ isInstalled = true /\ isConnected = true /\ is_Some kasware))
  /\ match completion o with
     | returned _ => toasts o = []
     | threw _ => exists t, toasts o = [t] /\ Click.destructive t = true
     end.
Proof.
  unfold sendTransaction.
  destruct isInstalled, isConnected, kasware as [[txId|e]|]; simpl;
    (split; [first [left; reflexivity|right; repeat split; eauto]|]);
    try reflexivity; eexists; split; reflexivity.
Qed.

End WalletProperties.

Section PurchaseProperties.
Import Api Polling Purchase MoreScenarios.

(** X26: without a connected wallet, or with a wallet balance below the price of
    the packs, [handleBuyPixels] only raises one toast: nothing is sent to
    the wallet or the backend and no timer is started, whatever the wallet
    and the backend would have answered. *)
Theorem refused_purchase_sends_nothing (p : Props) (balanceRead : BalanceResponse)
    (sent : Wallet.Sent) (now : Z) (purchased : Completion Fetch.PurchaseData)
    (s : Shop) :
  isConnected (closure p) = false \/ balance p < packsToBuy p * pixelPackCost p ->
  exists t, handleBuyPixels p balanceRead sent now purchased s = toast t s
            /\ Click.destructive t = true.
Proof.
  intros Hrefused. unfold handleBuyPixels, handleBuyPixels_begin, totalCost.
  destruct (isConnected (closure p)); simpl.
  - destruct Hrefused as [Hc|Hlt]; [discriminate|].
    apply Z.ltb_lt in Hlt. rewrite Hlt. eexists. split; reflexivity.
  - eexists. split; reflexivity.
Qed.

Lemma refused_purchase_sends_nothing_witness :
  exists t,
    handleBuyPixels poorProps (balanceBody 5) (Wallet.returned (Some "txA"))
      Scenarios.t0 (Throw "unused") shop = toast t shop
    /\ Click.destructive t = true.
Proof.
  apply (refused_purchase_sends_nothing poorProps).
  right. reflexivity.
Defined.

Lemma shown (s : Shop) (t : Click.Toast) : t ∈ Purchase.toasts (toast t s).
Proof. simpl. apply elem_of_app. right. apply list_elem_of_singleton. reflexivity. Qed.

(** X27: when the wallet does not send the transaction, the handler stops there:
    the component with its timers and refs is untouched (no verification
    starts), the purchase endpoint is not called, the dialog is closed and
    one "Purchase failed" toast is raised. *)
Theorem unsent_transaction_starts_no_verification (p : Props)
    (initialPixelBalance : Z) (r : Wallet.Sent) (now : Z) (s : Shop) :
  notSent r = true ->
  exists after e,
    handleBuyPixels_afterSend p initialPixelBalance r now s = Finished after
    /\ component after = component s
    /\ purchasePixelsCalls after = purchasePixelsCalls s
    /\ isPaying after = false /\ showPurchaseModal after = false
    /\ Purchase.toasts after = Purchase.toasts s ++ [purchaseFailed e].
Proof.
  unfold handleBuyPixels_afterSend, notSent.
  destruct r as [[txId|]|e]; [intros ->|intros _..];
    eexists _, _; repeat split; reflexivity.
Qed.

Lemma unsent_transaction_starts_no_verification_witness :
  exists after e,
    handleBuyPixels_afterSend shopProps 5
      (Wallet.threw (Wallet.anError "User rejected the request"))
      Scenarios.t0 shop = Finished after
    /\ component after = component shop
    /\ purchasePixelsCalls after = purchasePixelsCalls shop
    /\ isPaying after = false /\ showPurchaseModal after = false
    /\ Purchase.toasts after = Purchase.toasts shop ++ [purchaseFailed e].
Proof.
  apply (unsent_transaction_starts_no_verification shopProps 5).
  reflexivity.
Defined.





(** X29: a failed balance read before the purchase is not noticed: the handler
    goes on to the wallet with a baseline of 0 and shows a balance of 0,
    whatever the balance was. *)
Theorem failed_balance_read_gives_zero_baseline (p : Props)
    (r : BalanceResponse) (s : Shop) :
  queryFailed r = true ->
  exists paying,
    handleBuyPixels_afterBalance p r s = AwaitSend paying 0
    /\ remainingPixels (component paying) = 0
    /\ sendTransactionCalls paying
       = sendTransactionCalls s ++ [(receiverAddress p, totalCost p)].
Proof.
  intros Hf. unfold handleBuyPixels_afterBalance.
  assert (Hz : forall a, fst (getWalletBalance a r) = Return 0)
    by (intros a; destruct r; try discriminate Hf; reflexivity).
  rewrite Hz. eexists. split; [reflexivity|]. split; reflexivity.
Qed.

Lemma failed_balance_read_gives_zero_baseline_witness :
  exists paying,
    handleBuyPixels_afterBalance shopProps (httpError 500) shop
    = AwaitSend paying 0
    /\ remainingPixels (component paying) = 0
    /\ sendTransactionCalls paying = [("kaspa:qreceiver", 400000000)].
Proof.
  apply (failed_balance_read_gives_zero_baseline shopProps (httpError 500) shop).
  reflexivity.
Defined.

End PurchaseProperties.
Section MorePollingProperties.
Import Api Polling Tracking Scenarios MoreScenarios.

Lemma session_confirms_at_most_once_witness :
  forallb (fun e => negb (isBuy e)) threeVerifiedPolls = true /\
  (confirmations "txA"
     (run (mounted 5%Z) (buy "txA" 1%Z (Some 5%Z) wallet t0 :: threeVerifiedPolls))
   <= confirmations "txA" (mounted 5%Z) + 1)%nat.
Proof.
  split; [reflexivity|].
  apply (session_confirms_at_most_once "txA" 1 (Some 5) wallet t0 (mounted 5)
           threeVerifiedPolls "txA").
  reflexivity.
Defined.

Lemma verification_timers_never_pile_up_witness :
  let s := run (mounted 5) onePurchase in
  timers s !! 2%nat = Some (verificationTick "txA" 1 (Some 5) wallet)
  /\ verificationIntervalRef s = Some 2%nat.
Proof.
  intros s. split; [reflexivity|].
  apply (verification_timers_never_pile_up 5 onePurchase 2 2
           (verificationTick "txA" 1 (Some 5) wallet)
           (verificationTick "txA" 1 (Some 5) wallet)
           eq_refl eq_refl); reflexivity.
Defined.

Lemma unmount_clears_tracked_intervals_witness :
  walletBalanceIntervalRef (run (mounted 5) verifiedPurchase) = Some 7%nat /\
  timers (unmount (run (mounted 5) verifiedPurchase)) !! 7%nat = None.
Proof.
  split; [reflexivity|].
  apply (unmount_clears_tracked_intervals (run (mounted 5) verifiedPurchase) 7).
  right. right. reflexivity.
Defined.

(** X3: a balance poll that observes at least the expected balance ends the
    loop: the observed balance is shown, the interval is cleared and its
    ref emptied. *)
Theorem balance_poll_reaching_expected_stops (s : Component) (id loop : nat)
    (L : BalanceLoop) (b now : Z) (interval : nat) :
  pending s !! id = Some (afterBalancePoll loop) ->
  loops s !! loop = Some L ->
  walletBalanceIntervalRef s = Some interval ->
  expectedBalance L <= b ->
  let s' := step s (balanceSettles id (balanceBody b) now) in
  remainingPixels s' = b
  /\ walletBalanceIntervalRef s' = None
  /\ timers s' !! interval = None
  /\ pending s' !! id = None.
Proof.
  intros Hp HL Href Hle s'. subst s'. simpl. rewrite Hp.
  rewrite (checkBalance_resume_reached loop (balanceBody b) now
             (with_pending (delete id (pending s)) s) L b HL eq_refl Hle).
  unfold stopWalletBalanceInterval.
  cbn [walletBalanceIntervalRef with_remainingPixels with_pending].
  rewrite Href. simpl. rewrite !lookup_delete_eq. auto.
Qed.

Lemma balance_poll_reaching_expected_stops_witness :
  let s := run (mounted 5) verifiedPurchase in
  let s' := step s (balanceSettles 6 (balanceBody 15) (t0 + 1300)) in
  remainingPixels s' = 15
  /\ walletBalanceIntervalRef s' = None
  /\ timers s' !! 7%nat = None
  /\ pending s' !! 6%nat = None.
Proof.
  intros s.
  apply (balance_poll_reaching_expected_stops s 6 5
           {| closure := wallet; initialBalance := 5; expectedBalance := 15;
              lastPolledBalance := 5; pollCount := 1; zeroBalanceCount := 0;
              pollingStartTime := t0 + 1200 |} 15 (t0 + 1300) 7);
    reflexivity.
Defined.

(** X4: when the first balance read after the confirmation already shows the
    expected balance, no polling starts: the balance is shown, and no timer,
    no loop and no request is created. *)
Theorem updated_balance_starts_no_polling (s : Component) (id : nat)
    (initial pixelsPurchased : Z) (c : Closure) (b now : Z) :
  pending s !! id = Some (afterCurrentBalance initial pixelsPurchased c) ->
  initial + pixelsPurchased <= b ->
  let s' := step s (balanceSettles id (balanceBody b) now) in
  remainingPixels s' = b
  /\ timers s' = timers s
  /\ loops s' = loops s
  /\ pending s' = delete id (pending s)
  /\ walletBalanceIntervalRef s' = walletBalanceIntervalRef s.
Proof.
  intros Hp Hle s'. subst s'. simpl. rewrite Hp. unfold startPolling.
  apply Z.leb_le in Hle. rewrite Hle. repeat split; reflexivity.
Qed.

Lemma updated_balance_starts_no_polling_witness :
  let s := run (mounted 5) (take 3 verifiedPurchase) in
  let s' := step s (balanceSettles 4 (balanceBody 15) (t0 + 1200)) in
  remainingPixels s' = 15
  /\ timers s' = timers s
  /\ loops s' = loops s
  /\ pending s' = delete 4%nat (pending s)
  /\ walletBalanceIntervalRef s' = walletBalanceIntervalRef s.
Proof.
  intros s.
  apply (updated_balance_starts_no_polling s 4 5 10 wallet 15 (t0 + 1200)).
  - reflexivity.
  - vm_compute. discriminate.
Defined.

(** X5: the safety timeout ends the balance loop: when it fires, the interval
    the ref holds is cleared, the ref is emptied and the timeout itself is
    gone, whatever the polls have seen. *)
Theorem safety_timeout_stops_balance_polling (s : Component)
    (timeout interval : nat) (now : Z) :
  timers s !! timeout = Some balanceSafetyTimeout ->
  walletBalanceIntervalRef s = Some interval ->
  let s' := step s (timerFires timeout now) in
  walletBalanceIntervalRef s' = None
  /\ timers s' !! interval = None
  /\ timers s' !! timeout = None
  /\ remainingPixels s' = remainingPixels s.
Proof.
  intros Ht Href s'. subst s'. simpl. rewrite Ht.
  unfold balanceSafetyTimeout_run, stopWalletBalanceInterval, clearTimer.
  cbn [walletBalanceIntervalRef with_timers]. rewrite Href. simpl.
  rewrite lookup_delete_eq. repeat split; try reflexivity.
  rewrite lookup_delete. case_decide; [reflexivity|apply lookup_delete_eq].
Qed.

Lemma safety_timeout_stops_balance_polling_witness :
  let s := run (mounted 5) zeroBalanceTrace in
  let s' := step s (timerFires 8 (t0 + 11200)) in
  walletBalanceIntervalRef s' = None
  /\ timers s' !! 7%nat = None
  /\ timers s' !! 8%nat = None
  /\ remainingPixels s' = remainingPixels s.
Proof.
  intros s.
  apply (safety_timeout_stops_balance_polling s 8 7 (t0 + 11200)); reflexivity.
Defined.

End MorePollingProperties.

Section MoreHookProperties.
Import WebSocketHook HookTracking Scenarios MoreScenarios.

Lemma hook_timers_never_pile_up_witness :
  timers openHook !! 2%nat = Some (pingTick 1)
  /\ pingIntervalRef openHook = Some 2%nat.
Proof.
  split; [reflexivity|].
  apply (hook_timers_never_pile_up true 0 [mount; opened 1] 2 2
           (pingTick 1) (pingTick 1) eq_refl eq_refl); eexists; reflexivity.
Defined.

Lemma cleanup_clears_tracked_timers_witness :
  pingIntervalRef openHook = Some 2%nat /\
  timers (cleanup openHook) !! 2%nat = None.
Proof.
  split; [reflexivity|].
  apply (cleanup_clears_tracked_timers openHook 2). left. reflexivity.
Defined.

Lemma onclose_fields (g : Hook) :
  timers (onclose g)
  = <[nextId g := reconnectTimeout]>
      (from_option (fun id => delete id) id (reconnectTimeoutRef g)
         (from_option (fun id => delete id) id (pingIntervalRef g) (timers g)))
  /\ reconnectTimeoutRef (onclose g) = Some (nextId g)
  /\ pingIntervalRef (onclose g) = None
  /\ isConnected (onclose g) = false
  /\ sockets (onclose g) = sockets g.
Proof.
  destruct g as [u so sr [r|] [pi|] lp ic ig cs t n ps]; repeat split.
Qed.

(** X9: after the [close] event of any socket that was not closed yet, in any
    run of the hook, exactly one timer is alive: the reconnect timeout that
    [reconnectTimeoutRef] holds.  The heartbeat is stopped and the hook
    reports itself disconnected. *)
Theorem disconnect_leaves_only_the_reconnect_timer (accepted : bool) (now : Z)
    (events : list Event) (socket : nat) :
  let h := run (rendered accepted now) events in
  (exists state, sockets h !! socket = Some state /\ state <> CLOSED) ->
  let h' := step h (closed socket) in
  timers h' = {[ nextId h := reconnectTimeout ]}
  /\ reconnectTimeoutRef h' = Some (nextId h)
  /\ pingIntervalRef h' = None
  /\ isConnected h' = false
  /\ sockets h' !! socket = Some CLOSED.
Proof.
  intros h (state & Hsock & Hopen) h'.
  assert (Htr : hookTimersTracked h).
  { apply run_hook_tracked. intros i c. simpl. rewrite lookup_empty.
    discriminate. }
  assert (Heq : h' = onclose (with_sockets (<[socket := CLOSED]> (sockets h)) h)).
  { unfold h'. simpl. rewrite Hsock. destruct state; try reflexivity.
    contradiction. }
  destruct (onclose_fields (with_sockets (<[socket := CLOSED]> (sockets h)) h))
    as (Ht & Hr & Hp & Hc & Hs).
  rewrite Heq, Ht, Hr, Hp, Hc, Hs.
  cbn [timers nextId reconnectTimeoutRef pingIntervalRef sockets with_sockets].
  split; [|repeat split; try reflexivity; apply lookup_insert_eq].
  apply map_eq. intros i. rewrite lookup_insert, lookup_singleton.
  case_decide; [reflexivity|].
  destruct (timers h !! i) as [cb|] eqn:Hi.
  - pose proof (Htr i cb Hi) as Href. destruct cb as [s0|]; rewrite Href.
    + destruct (reconnectTimeoutRef h); simpl;
        rewrite ?lookup_delete; repeat case_decide; try reflexivity;
        rewrite ?lookup_delete_eq; try reflexivity; congruence.
    + simpl. rewrite lookup_delete_eq. reflexivity.
  - destruct (reconnectTimeoutRef h), (pingIntervalRef h); simpl;
      rewrite ?lookup_delete; repeat case_decide; try reflexivity; exact Hi.
Qed.

Lemma disconnect_leaves_only_the_reconnect_timer_witness :
  let h' := step openHook (closed 1) in
  timers h' = {[ 3%nat := reconnectTimeout ]}
  /\ reconnectTimeoutRef h' = Some 3%nat
  /\ pingIntervalRef h' = None
  /\ isConnected h' = false
  /\ sockets h' !! 1%nat = Some CLOSED.
Proof.
  apply (disconnect_leaves_only_the_reconnect_timer true 0 [mount; opened 1] 1).
  exists OPEN. split; [reflexivity|discriminate].
Defined.

(** X10: the liveness check: after a pong (or ping) frame received at time
    [seen], the next heartbeat of an open socket always sends a ping, and it
    closes the socket exactly when more than 45 seconds have passed since
    that frame. *)
Theorem heartbeat_closes_silent_socket (h : Hook) (socket id : nat)
    (seen now : Z) (isPing : bool) :
  sockets h !! socket = Some OPEN ->
  timers h !! id = Some (pingTick socket) ->
  let heard := step h (frame socket (if isPing then ping else pong) seen) in
  let h' := step heard (timerFires id now) in
  pingsSent h' = pingsSent h ++ [socket]
  /\ sockets h' !! socket
     = Some (if 45000 <? now - seen then CLOSING else OPEN)
  /\ timers h' = timers h.
Proof.
  intros Hopen Htimer heard h'. subst h' heard. simpl. rewrite Hopen.
  assert (Hm : onmessage_run (if isPing then ping else pong) seen h
               = with_lastPongRef seen h) by (destruct isPing; reflexivity).
  rewrite Hm. cbn [timers with_lastPongRef]. rewrite Htimer.
  unfold pingTick_run. cbn [sockets with_lastPongRef]. rewrite Hopen.
  cbn [lastPongRef with_pingsSent with_lastPongRef].
  destruct (45000 <? now - seen).
  - unfold close. cbn [sockets with_pingsSent with_lastPongRef].
    rewrite Hopen. cbn [pingsSent timers sockets with_sockets with_pingsSent
                          with_lastPongRef].
    rewrite lookup_insert_eq. auto.
  - cbn [pingsSent timers sockets with_pingsSent with_lastPongRef]. auto.
Qed.

Lemma heartbeat_closes_silent_socket_witness :
  let heard := step openHook (frame 1 pong 1000) in
  let h' := step heard (timerFires 2 50000) in
  pingsSent h' = [1%nat]
  /\ sockets h' !! 1%nat = Some CLOSING
  /\ timers h' = timers openHook.
Proof.
  apply (heartbeat_closes_silent_socket openHook 1 2 1000 50000 false);
    reflexivity.
Defined.

End MoreHookProperties.

Section UrlProperties.
Import Url.

Lemma startsWith_ws (pageProtocol rest : string) :
  Click.startsWith "ws://" (wsProtocol pageProtocol +:+ "//" +:+ rest)
  || Click.startsWith "wss://" (wsProtocol pageProtocol +:+ "//" +:+ rest) = true.
Proof. unfold wsProtocol. destruct (String.eqb pageProtocol "https:"); reflexivity. Qed.

(** X11: in a browser the hook always connects to a WebSocket URL: the computed
    [wsUrl] starts with [ws://] or [wss://] whatever [url] it was given, and
    computing it again from the result gives the same URL. *)
Theorem wsUrl_is_a_websocket_url (pageProtocol host url : string) :
  let u := wsUrl true pageProtocol host url in
  Click.startsWith "ws://" u || Click.startsWith "wss://" u = true
  /\ wsUrl true pageProtocol host u = u.
Proof.
  intros u.
  assert (Hscheme : Click.startsWith "ws://" u || Click.startsWith "wss://" u = true).
  { unfold u, wsUrl.
    destruct (Click.startsWith "ws://" url || Click.startsWith "wss://" url) eqn:Hfull;
      [exact Hfull|].
    destruct (Click.startsWith "/" url); apply startsWith_ws. }
  split; [exact Hscheme|].
  unfold wsUrl at 1. fold u. rewrite Hscheme. reflexivity.
Qed.

(** X12: on a page served over https, a URL that is not already a full
    WebSocket URL is never opened in clear: the hook connects with [wss://],
    to the page's host; and the [WS_URL] that [PixelCanvas] passes is used
    as it is. *)
Theorem secure_page_uses_wss (host url : string) :
  Click.startsWith "ws://" url || Click.startsWith "wss://" url = false ->
  Click.startsWith "wss://" (wsUrl true "https:" host url) = true
  /\ Click.startsWith ("wss://" +:+ host) (wsUrl true "https:" host url) = true
  /\ wsUrl true "https:" host (WS_URL true "https:" host)
     = "wss://" +:+ host +:+ "/ws".
Proof.
  intros Hrel. unfold wsUrl. rewrite Hrel.
  assert (Hpre : forall a b : string, Click.startsWith a (a +:+ b) = true).
  { induction a as [|c a IH]; intros b; [destruct b; reflexivity|].
    simpl. rewrite Ascii.eqb_refl. apply IH. }
  split; [destruct (Click.startsWith "/" url); reflexivity|].
  split.
  - destruct (Click.startsWith "/" url);
      change (wsProtocol "https:" +:+ "//" +:+ host +:+ ?t)
        with (("wss://" +:+ host) +:+ t); apply Hpre.
  - reflexivity.
Qed.

Lemma secure_page_uses_wss_witness :
  Click.startsWith "wss://" (wsUrl true "https:" "kaspixel.example" "/ws") = true
  /\ Click.startsWith ("wss://" +:+ "kaspixel.example")
       (wsUrl true "https:" "kaspixel.example" "/ws") = true
  /\ wsUrl true "https:" "kaspixel.example" (WS_URL true "https:" "kaspixel.example")
     = "wss://" +:+ "kaspixel.example" +:+ "/ws".
Proof.
  apply (secure_page_uses_wss "kaspixel.example" "/ws"). reflexivity.
Defined.

End UrlProperties.
Section BalanceProperties.
Import Api Boot Scenarios.

(** X30: a balance read that fails when the wallet connects locks the canvas:
    [fetchBalance] shows the 0 that [getWalletBalance] returns, and the next
    click on a desktop client with a connected wallet paints nothing, sends
    nothing and opens the purchase modal. *)
Theorem failed_balance_fetch_blocks_clicks (p : Click.Props)
    (e : Click.ClickEvent) (r : BalanceResponse) (v : Click.View) :
  Click.isMobile p = false ->
  Click.isConnected p = true ->
  queryFailed r = true ->
  Click.remainingPixels (fetchBalance p r v) = 0
  /\ Click.handlePixelClick_begin p e (fetchBalance p r v)
     = Click.Finished (Click.setShowPurchaseModal true (fetchBalance p r v)).
Proof.
  intros Hm Hc Hf.
  assert (Hzero : Click.remainingPixels (fetchBalance p r v) = 0).
  { unfold fetchBalance. rewrite Hc.
    destruct (Click.address p) as [a|]; [|reflexivity].
    destruct (String.eqb a ""); [reflexivity|].
    destruct r; try discriminate Hf; reflexivity. }
  split; [exact Hzero|].
  unfold Click.handlePixelClick_begin. rewrite Hm, Hc, Hzero. reflexivity.
Qed.

Lemma failed_balance_fetch_blocks_clicks_witness :
  Click.remainingPixels (fetchBalance desktopProps (httpError 503) whiteCellView) = 0
  /\ Click.handlePixelClick_begin desktopProps clickAtOrigin
       (fetchBalance desktopProps (httpError 503) whiteCellView)
     = Click.Finished
         (Click.setShowPurchaseModal true
            (fetchBalance desktopProps (httpError 503) whiteCellView)).
Proof.
  apply (failed_balance_fetch_blocks_clicks desktopProps clickAtOrigin
           (httpError 503) whiteCellView); reflexivity.
Defined.

End BalanceProperties.
